(** * Inventory system: a shallow embedding of [inventory_system.py]

    The module keeps one process-wide dictionary [stock_data : Dict[str, int]]
    and exposes [add_item], [remove_item], [get_qty], [load_data],
    [save_data], [print_data] and [check_low_items] over it.

    Modelling conventions.
    - A Python [int] is unbounded: [Z].  [bool] is a subclass of [int]
      ([isinstance(True, int)] holds), so the instances of [int] are
      [pyint]: exact integers and the two booleans.
    - A Python [str] is a [string] whose characters are read as code points
      below 256.
    - A Python [dict] keeps insertion order: it is an association list with
      pairwise distinct keys ([dict_wf]); assignment to a present key keeps
      its position, assignment to a new key appends.
    - The functions raise and mutate module state: they live in a small
      state-and-exception monad [py] over the [world] (store, file system,
      logging output, standard output).  A raise keeps the world as it is at
      that point, so mutations made before a raise stay visible.
    - [json.load]/[json.dump] are library calls; files hold either a JSON
      document (as a syntax tree), undecodable text, or are directories. *)

From Stdlib Require Import ZArith List String Ascii Bool Lia.
From stdpp Require Import base option list sorting strings gmap pretty.

Local Open Scope string_scope.
Local Open Scope list_scope.
#[local] Set Warnings "-register-all".


(** ** Python values *)

(** Instances of [int]. *)
Inductive pyint : Type :=
  | PInt (z : Z)
  | PBool (b : bool).

(** The numeric value used by [+], [-], [<] and [<=]. *)
Definition int_value (n : pyint) : Z :=
  match n with
  | PInt z => z
  | PBool b => Z.b2z b
  end.

(** The objects that reach the functions: arguments and decoded JSON. A float
    is kept as mantissa and binary exponent; the code never computes with
    one. *)
Inductive pyval : Type :=
  | PyNone
  | PyInt (n : pyint)
  | PyFloat (m e : Z)
  | PyStr (s : string)
  | PyList (l : list pyval)
  | PyDict (items : list (pyval * pyval)).

(** [isinstance(v, str)] and [isinstance(v, int)]. *)
Definition isinstance_str (v : pyval) : bool :=
  match v with PyStr _ => true | _ => false end.

Definition isinstance_int (v : pyval) : bool :=
  match v with PyInt _ => true | _ => false end.

(** [str(n)], as the f-strings and [%s] format it. *)
Definition py_str (n : pyint) : string :=
  match n with
  | PInt z => pretty z
  | PBool true => "True"
  | PBool false => "False"
  end.

(** ** [str.strip] *)

(** [str.isspace] on one character (code points below 256). *)
Definition isspace (c : ascii) : bool :=
  let n := N_of_ascii c in
  ((9 <=? n) && (n <=? 13) || (28 <=? n) && (n <=? 32)
   || (n =? 133) || (n =? 160))%N.

Fixpoint lstrip (s : string) : string :=
  match s with
  | EmptyString => EmptyString
  | String c s' => if isspace c then lstrip s' else s
  end.

Fixpoint rstrip (s : string) : string :=
  match s with
  | EmptyString => EmptyString
  | String c s' =>
      match rstrip s' with
      | EmptyString => if isspace c then EmptyString else String c EmptyString
      | r => String c r
      end
  end.

Definition strip (s : string) : string := rstrip (lstrip s).

(** Truth value of a string: [not s] holds exactly for the empty string. *)
Definition str_is_empty (s : string) : bool :=
  match s with EmptyString => true | _ => false end.

(** ** Insertion-ordered dictionaries with string keys *)

Definition dict (V : Type) : Type := list (string * V).

Section dict_ops.
Context {V : Type}.

(** [d.get(k)] / [k in d]. *)
Fixpoint dict_get (k : string) (d : dict V) : option V :=
  match d with
  | [] => None
  | (k', v) :: d' => if String.eqb k k' then Some v else dict_get k d'
  end.

(** [d[k] = v]. *)
Fixpoint dict_set (k : string) (v : V) (d : dict V) : dict V :=
  match d with
  | [] => [(k, v)]
  | (k', v') :: d' =>
      if String.eqb k k' then (k', v) :: d' else (k', v') :: dict_set k v d'
  end.

(** [del d[k]]. *)
Fixpoint dict_del (k : string) (d : dict V) : dict V :=
  match d with
  | [] => []
  | (k', v') :: d' =>
      if String.eqb k k' then d' else (k', v') :: dict_del k d'
  end.

(** [d.update(items)]: assignments in iteration order. *)
Definition dict_update (d : dict V) (items : list (string * V)) : dict V :=
  foldl (fun acc kv => dict_set kv.1 kv.2 acc) d items.

(** Keys are pairwise distinct, as in every Python dictionary. *)
Definition dict_wf (d : dict V) : Prop := NoDup (d.*1).

(** [d1 == d2]: the same keys with the same values, in any order. *)
Definition dict_eq (d1 d2 : dict V) : Prop :=
  forall k, dict_get k d1 = dict_get k d2.
End dict_ops.

(** ** JSON documents and files *)

Inductive json : Type :=
  | JNull
  | JBool (b : bool)
  | JInt (z : Z)
  | JFloat (m e : Z)
  | JStr (s : string)
  | JArr (l : list json)
  | JObj (members : list (string * json)).

(** What [json.load] builds from a document. An object becomes a dictionary;
    a repeated member name keeps its first position and its last value. *)
Fixpoint json_decode (j : json) : pyval :=
  match j with
  | JNull => PyNone
  | JBool b => PyInt (PBool b)
  | JInt z => PyInt (PInt z)
  | JFloat m e => PyFloat m e
  | JStr s => PyStr s
  | JArr l => PyList (map json_decode l)
  | JObj members =>
      PyDict (map (fun kv : string * pyval => (PyStr kv.1, kv.2))
                  (dict_update [] (map (fun kv => (kv.1, json_decode kv.2))
                                       members)))
  end.

(** What [json.dump] writes for one stored quantity. *)
Definition json_of_pyint (n : pyint) : json :=
  match n with
  | PInt z => JInt z
  | PBool b => JBool b
  end.

(** String order by code point, as [sorted] and [sort_keys] use it. *)
Definition str_le (a b : string) : Prop := String.leb a b = true.

Global Instance str_le_dec (a b : string) : Decision (str_le a b).
Proof. unfold str_le. apply _. Defined.

(** Member order under [sort_keys=True]. *)
Definition key_le {V : Type} (a b : string * V) : Prop := str_le a.1 b.1.

Global Instance key_le_dec {V : Type} (a b : string * V) :
  Decision (key_le a b).
Proof. unfold key_le. apply _. Defined.

(** [json.dump(d, handle, indent=2, sort_keys=True)] for a [str -> int]
    dictionary; indentation does not change the document. *)
Definition json_dump (d : dict pyint) : json :=
  JObj (merge_sort key_le (map (fun kv => (kv.1, json_of_pyint kv.2)) d)).

Inductive file : Type :=
  | Dir
  | Doc (j : json)
  | Junk (raw : string).

(** ** The world and the monad *)

Inductive level : Type := INFO | WARNING.

Record world : Type := World {
  stock_data : dict pyint;
  files : gmap string file;
  logging : list (level * string);
  stdout : list string
}.

Inductive exn : Type :=
  | ValueError (msg : string)
  | KeyError (key : string)
  | JSONDecodeError
  | OSError.

Inductive outcome (A : Type) : Type :=
  | Return (a : A)
  | Raise (e : exn).
Arguments Return {A} a.
Arguments Raise {A} e.

Definition py (A : Type) : Type := world -> outcome A * world.

Definition py_ret {A : Type} (a : A) : py A := fun w => (Return a, w).

Definition py_bind {A B : Type} (m : py A) (k : A -> py B) : py B :=
  fun w =>
    match m w with
    | (Return a, w') => k a w'
    | (Raise e, w') => (Raise e, w')
    end.

Definition raise {A : Type} (e : exn) : py A := fun w => (Raise e, w).

Notation "x <- m ;; k" := (py_bind m (fun x => k))
  (at level 100, m at next level, right associativity).
Notation "m ;;; k" := (py_bind m (fun _ => k))
  (at level 100, right associativity).

Definition read_stock : py (dict pyint) := fun w => (Return (stock_data w), w).

Definition write_stock (d : dict pyint) : py unit :=
  fun w => (Return tt, World d (files w) (logging w) (stdout w)).

(** [stock_data[k]]. *)
Definition stock_getitem (k : string) : py pyint :=
  d <- read_stock ;;
  match dict_get k d with
  | Some v => py_ret v
  | None => raise (KeyError k)
  end.

Definition logging_emit (l : level) (msg : string) : py unit :=
  fun w =>
    (Return tt,
     World (stock_data w) (files w) (logging w ++ [(l, msg)]) (stdout w)).

Definition print (line : string) : py unit :=
  fun w =>
    (Return tt,
     World (stock_data w) (files w) (logging w) (stdout w ++ [line])).

(** [Path(p).exists()]. *)
Definition path_exists (p : string) : py bool :=
  fun w => (Return (bool_decide (is_Some (files w !! p))), w).

(** [with path.open("r") as handle: json.load(handle)]. *)
Definition open_json_load (p : string) : py pyval :=
  fun w =>
    match files w !! p with
    | Some (Doc j) => (Return (json_decode j), w)
    | Some (Junk _) => (Raise JSONDecodeError, w)
    | Some Dir | None => (Raise OSError, w)
    end.

(** [with path.open("w") as handle: json.dump(d, handle, ...)]. *)
Definition open_json_dump (p : string) (d : dict pyint) : py unit :=
  fun w =>
    match files w !! p with
    | Some Dir => (Raise OSError, w)
    | _ =>
        (Return tt,
         World (stock_data w) (<[p := Doc (json_dump d)]> (files w))
               (logging w) (stdout w))
    end.

(** ** The operations of [inventory_system.py] *)

(** [add_item(item, qty, logs)]. [stamp] is what
    [datetime.now().isoformat(timespec="seconds")] yields during the call.
    The result is the content of the [logs] list after the call (the
    caller's list, or the fresh one made for [logs=None]). *)
Definition add_item (item qty : pyval) (logs : option (list string))
    (stamp : string) : py (list string) :=
  match item with
  | PyStr name =>
      if str_is_empty (strip name)
      then raise (ValueError "item must be a nonempty string")
      else
        match qty with
        | PyInt n =>
            if (int_value n <? 0)%Z
            then raise (ValueError "qty must be nonnegative")
            else
              let logs := match logs with None => [] | Some l => l end in
              d <- read_stock ;;
              let old := match dict_get name d with
                         | Some v => v
                         | None => PInt 0
                         end in
              write_stock
                (dict_set name (PInt (int_value old + int_value n)) d) ;;;
              let logs :=
                (logs
                 ++ [stamp +:+ ": Added " +:+ py_str n +:+ " of " +:+ name])%list
              in
              logging_emit INFO ("Added " +:+ py_str n +:+ " of " +:+ name) ;;;
              py_ret logs
        | _ => raise (ValueError "qty must be an integer")
        end
  | _ => raise (ValueError "item must be a nonempty string")
  end.

(** [remove_item(item, qty)]. *)
Definition remove_item (item qty : pyval) : py unit :=
  match item with
  | PyStr name =>
      if str_is_empty (strip name)
      then raise (ValueError "item must be a nonempty string")
      else
        match qty with
        | PyInt n =>
            if (int_value n <=? 0)%Z
            then raise (ValueError "qty must be a positive integer")
            else
              d <- read_stock ;;
              match dict_get name d with
              | None =>
                  logging_emit WARNING
                    ("Tried removing missing item " +:+ name)
              | Some _ =>
                  cur <- stock_getitem name ;;
                  d <- read_stock ;;
                  write_stock
                    (dict_set name (PInt (int_value cur - int_value n)) d) ;;;
                  now <- stock_getitem name ;;
                  if (int_value now <=? 0)%Z
                  then
                    d <- read_stock ;;
                    write_stock (dict_del name d) ;;;
                    logging_emit INFO
                      ("Removed item " +:+ name +:+ " completely")
                  else
                    now <- stock_getitem name ;;
                    logging_emit INFO
                      ("New qty for " +:+ name +:+ ": " +:+ py_str now)
              end
        | _ => raise (ValueError "qty must be a positive integer")
        end
  | _ => raise (ValueError "item must be a nonempty string")
  end.

(** [get_qty(item)]. *)
Definition get_qty (item : pyval) : py pyint :=
  match item with
  | PyStr name =>
      if str_is_empty (strip name)
      then raise (ValueError "item must be a nonempty string")
      else
        d <- read_stock ;;
        py_ret (match dict_get name d with
                | Some v => v
                | None => PInt 0
                end)
  | _ => raise (ValueError "item must be a nonempty string")
  end.

(** The generator under [all(...)] in [load_data]. *)
Definition is_str_int_pair (kv : pyval * pyval) : bool :=
  isinstance_str kv.1 && isinstance_int kv.2.

(** The items of a decoded object as [stock_data.update] receives them once
    the [all(...)] check has passed: every pair is [str -> int]. *)
Fixpoint str_int_items (items : list (pyval * pyval))
    : list (string * pyint) :=
  match items with
  | [] => []
  | (PyStr k, PyInt n) :: rest => (k, n) :: str_int_items rest
  | _ :: rest => str_int_items rest
  end.

(** [load_data(file_path)]. *)
Definition load_data (file_path : string) : py unit :=
  present <- path_exists file_path ;;
  if negb present
  then write_stock []
  else
    data <- open_json_load file_path ;;
    match data with
    | PyDict items =>
        if negb (forallb is_str_int_pair items)
        then raise (ValueError "File format must be str -> int mapping")
        else
          write_stock [] ;;;
          d <- read_stock ;;
          write_stock (dict_update d (str_int_items items))
    | _ => raise (ValueError "Invalid file format: not an object")
    end.

(** [save_data(file_path)]. *)
Definition save_data (file_path : string) : py unit :=
  d <- read_stock ;;
  open_json_dump file_path d.

(** [sorted(d)]: the keys in ascending order. *)
Definition sorted_keys {V : Type} (d : dict V) : list string :=
  merge_sort str_le (d.*1).

(** [print_data()]. *)
Definition print_data : py unit :=
  print "Items Report" ;;;
  d <- read_stock ;;
  fold_right
    (fun name rest =>
       v <- stock_getitem name ;;
       print (name +:+ " -> " +:+ py_str v) ;;;
       rest)
    (py_ret tt) (sorted_keys d).

(** [check_low_items(threshold)]. *)
Definition check_low_items (threshold : pyval) : py (list string) :=
  match threshold with
  | PyInt t =>
      if (int_value t <? 0)%Z
      then raise (ValueError "threshold must be nonnegative")
      else
        d <- read_stock ;;
        py_ret (map fst
                  (filter (fun kv => (int_value kv.2 < int_value t)%Z) d))
  | _ => raise (ValueError "threshold must be nonnegative")
  end.

(** The state the module starts in: an empty store. *)
Definition initial (fs : gmap string file) : world := World [] fs [] [].

(** [main()], up to the point where the file is written. *)
Definition main_calls (stamp : string) : py (pyint * pyint * list string) :=
  add_item (PyStr "apple") (PyInt (PInt 10)) None stamp ;;;
  add_item (PyStr "banana") (PyInt (PInt 2)) None stamp ;;;
  remove_item (PyStr "apple") (PyInt (PInt 3)) ;;;
  remove_item (PyStr "orange") (PyInt (PInt 1)) ;;;
  a <- get_qty (PyStr "apple") ;;
  b <- get_qty (PyStr "banana") ;;
  low <- check_low_items (PyInt (PInt 5)) ;;
  py_ret (a, b, low).

(** ** Predicates, sample states and the interface as calls *)

(** A string that does not start with white space. *)
Definition head_ok (s : string) : Prop :=
  match s with
  | EmptyString => True
  | String c _ => isspace c = false
  end.

(** Unfolds an operation down to the monad's primitives. *)
Ltac run :=
  unfold add_item, remove_item, get_qty, load_data, save_data,
    check_low_items, stock_getitem, py_bind, py_ret, raise, read_stock,
    write_stock, logging_emit, path_exists, open_json_load, open_json_dump;
  simpl.

(** What the store holds for [name], with absent items counting as 0. *)
Definition stored (name : string) (w : world) : pyint :=
  match dict_get name (stock_data w) with
  | Some v => v
  | None => PInt 0
  end.

(** The string is empty or holds white space only. *)
Fixpoint all_space (s : string) : bool :=
  match s with
  | EmptyString => true
  | String c s' => isspace c && all_space s'
  end.

(** A small store and a world around it, used in the examples. *)
Definition sample_store : dict pyint :=
  [("apple", PInt 3); ("pear", PInt 8); ("banana", PInt 2)].

Definition sample_world : world := World sample_store ∅ [] [].

(** The call raised [ValueError] and the world is the one before it. *)
Definition rejected {A : Type} (r : outcome A * world) (w : world) : Prop :=
  (exists msg, r.1 = Raise (ValueError msg)) /\ r.2 = w.

(** A quantity [add] refuses: not an [int], or negative. *)
Definition negative_or_non_int (v : pyval) : Prop :=
  isinstance_int v = false
  \/ exists n, v = PyInt n /\ (int_value n < 0)%Z.

(** A quantity [remove] refuses: not an [int], or not positive. *)
Definition non_positive_or_non_int (v : pyval) : Prop :=
  isinstance_int v = false
  \/ exists n, v = PyInt n /\ (int_value n <= 0)%Z.

(** The decoded content is not a [str -> int] object: it is not a
    dictionary, or one of its keys is not a [str], or one of its values is
    not an [int]. *)
Definition not_str_int_object (data : pyval) : Prop :=
  (forall items, data <> PyDict items)
  \/ exists items k v,
       data = PyDict items /\ (k, v) ∈ items
       /\ (isinstance_str k = false \/ isinstance_int v = false).

(** A file holding [{"apple": "ten"}]. *)
Definition ten_world : world :=
  World sample_store
        {["inventory.json" := Doc (JObj [("apple", JStr "ten")])]} [] [].

(** One decoded member as [stock_data.update] takes it. *)
Definition as_str_int (kv : pyval * pyval) : option (string * pyint) :=
  match kv with
  | (PyStr k, PyInt n) => Some (k, n)
  | _ => None
  end.

(** A stored entry as [json.dump] writes it, and a member as [json.load]
    decodes it. *)
Definition dumped (kv : string * pyint) : string * json :=
  (kv.1, json_of_pyint kv.2).

Definition decoded (kv : string * json) : pyval * pyval :=
  (PyStr kv.1, json_decode kv.2).

(** One call of the module's interface. *)
Inductive call : Type :=
  | CallAdd (item qty : pyval) (logs : option (list string)) (stamp : string)
  | CallRemove (item qty : pyval)
  | CallGet (item : pyval)
  | CallLoad (file_path : string)
  | CallSave (file_path : string)
  | CallPrint
  | CallLow (threshold : pyval).

(** The world after the call, whether it returned or raised. *)
Definition exec (c : call) (w : world) : world :=
  match c with
  | CallAdd item qty logs stamp => (add_item item qty logs stamp w).2
  | CallRemove item qty => (remove_item item qty w).2
  | CallGet item => (get_qty item w).2
  | CallLoad p => (load_data p w).2
  | CallSave p => (save_data p w).2
  | CallPrint => (print_data w).2
  | CallLow t => (check_low_items t w).2
  end.

(** States reached from the empty store by calls taken from [allowed]. *)
Inductive reachable_with (allowed : call -> Prop) : world -> Prop :=
  | reach_initial fs : reachable_with allowed (initial fs)
  | reach_call c w :
      allowed c -> reachable_with allowed w ->
      reachable_with allowed (exec c w).

Definition reachable : world -> Prop := reachable_with (fun _ => True).

Definition is_load (c : call) : Prop :=
  match c with CallLoad _ => True | _ => False end.

(** [Q] holds of the value of every entry. *)
Definition holds {V : Type} (Q : V -> Prop) (d : dict V) : Prop :=
  Forall (fun kv => Q kv.2) d.

(** Every entry has a quantity above 0 / at least 0. *)
Definition all_positive (d : dict pyint) : Prop :=
  holds (fun n => (0 < int_value n)%Z) d.

Definition all_nonneg (d : dict pyint) : Prop :=
  holds (fun n => (0 <= int_value n)%Z) d.

(** A file holding [{"apple": -5, "pear": 0}]. *)
Definition negative_file : gmap string file :=
  {["inventory.json" := Doc (JObj [("apple", JInt (-5)); ("pear", JInt 0)])]}.

(** ** [main] and what it prints *)

(** One hexadecimal digit, lower case. *)
Definition hex_digit (n : N) : ascii :=
  match String.get (N.to_nat n) "0123456789abcdef" with
  | Some c => c
  | None => "0"%char
  end.

(** [c.isprintable()] for a code point below 256: controls, the no-break
    space and the soft hyphen are not printable. *)
Definition isprintable (c : ascii) : bool :=
  let n := N_of_ascii c in
  ((32 <=? n) && (n <? 127) || (161 <=? n) && negb (n =? 173))%N.

(** One character inside [repr(s)], with [quote] the chosen delimiter. *)
Definition repr_char (quote c : ascii) : string :=
  let n := N_of_ascii c in
  if Ascii.eqb c quote || (n =? 92)%N then String "\"%char (String c "")
  else if (n =? 9)%N then "\t"
  else if (n =? 10)%N then "\n"
  else if (n =? 13)%N then "\r"
  else if isprintable c then String c ""
  else String "\"%char
         (String "x"%char
            (String (hex_digit (n / 16)) (String (hex_digit (n mod 16)) ""))).

Fixpoint str_contains (c : ascii) (s : string) : bool :=
  match s with
  | EmptyString => false
  | String c' s' => Ascii.eqb c c' || str_contains c s'
  end.

Fixpoint str_concat_map (f : ascii -> string) (s : string) : string :=
  match s with
  | EmptyString => EmptyString
  | String c s' => f c +:+ str_concat_map f s'
  end.

(** [repr(s)]: single quotes, unless the string holds a single quote and no
    double quote. *)
Definition py_repr_str (s : string) : string :=
  let quote :=
    if str_contains "'"%char s && negb (str_contains (ascii_of_N 34) s)
    then ascii_of_N 34 else "'"%char in
  String quote (str_concat_map (repr_char quote) s +:+ String quote "").

(** [", ".join(parts)]. *)
Fixpoint join_comma (parts : list string) : string :=
  match parts with
  | [] => ""
  | [x] => x
  | x :: rest => x +:+ ", " +:+ join_comma rest
  end.

(** [str(names)] for a list of strings, as an f-string formats it. *)
Definition py_str_list (names : list string) : string :=
  "[" +:+ join_comma (map py_repr_str names) +:+ "]".

(** [main()]. The two stamps are the clock readings of the two [add_item]
    calls. *)
Definition main (stamp1 stamp2 : string) : py unit :=
  add_item (PyStr "apple") (PyInt (PInt 10)) None stamp1 ;;;
  add_item (PyStr "banana") (PyInt (PInt 2)) None stamp2 ;;;
  remove_item (PyStr "apple") (PyInt (PInt 3)) ;;;
  remove_item (PyStr "orange") (PyInt (PInt 1)) ;;;
  apple <- get_qty (PyStr "apple") ;;
  print ("Apple stock: " +:+ py_str apple) ;;;
  low <- check_low_items (PyInt (PInt 5)) ;;
  print ("Low items: " +:+ py_str_list low) ;;;
  save_data "inventory.json" ;;;
  load_data "inventory.json" ;;;
  print_data.

(** One line of the report of [print_data]. *)
Definition report_line (d : dict pyint) (name : string) : string :=
  name +:+ " -> "
  +:+ py_str (match dict_get name d with Some v => v | None => PInt 0 end).

(** The JSON values [load_data] accepts as quantities: integers and
    booleans. *)
Definition json_is_int (j : json) : bool :=
  match j with
  | JInt _ | JBool _ => true
  | _ => false
  end.

(** * Properties *)

(** ** The calls of [main] *)

Example main_calls_run :
  (main_calls "t" (initial ∅)).1 = Return (PInt 7, PInt 2, ["banana"])
  /\ stock_data (main_calls "t" (initial ∅)).2
     = [("apple", PInt 7); ("banana", PInt 2)]
  /\ logging (main_calls "t" (initial ∅)).2
     = [(INFO, "Added 10 of apple"); (INFO, "Added 2 of banana");
        (INFO, "New qty for apple: 7");
        (WARNING, "Tried removing missing item orange")].
Proof. vm_compute. auto. Qed.

(** ** Dictionary lemmas *)

Section dict_facts.
Context {V : Type}.
Implicit Types (d : dict V) (k : string) (v : V).

Lemma dict_get_set_eq k v d : dict_get k (dict_set k v d) = Some v.
Proof.
  induction d as [|[k' v'] d IH]; simpl.
  - by rewrite String.eqb_refl.
  - destruct (String.eqb_spec k k') as [->|Hne]; simpl.
    + by rewrite String.eqb_refl.
    + by destruct (String.eqb_spec k k').
Qed.

Lemma dict_get_set_ne k k' v d :
  k <> k' -> dict_get k' (dict_set k v d) = dict_get k' d.
Proof.
  intros Hne. induction d as [|[k0 v0] d IH]; simpl.
  - by destruct (String.eqb_spec k' k) as [->|].
  - destruct (String.eqb_spec k k0) as [->|]; simpl.
    + by destruct (String.eqb_spec k' k0) as [->|].
    + by rewrite IH.
Qed.

Lemma dict_get_None k d : dict_get k d = None <-> k ∉ d.*1.
Proof.
  induction d as [|[k' v'] d IH]; simpl.
  - split; [intros _; apply not_elem_of_nil | done].
  - rewrite not_elem_of_cons.
    destruct (String.eqb_spec k k') as [->|Hne].
    + split; [done | by intros [? _]].
    + rewrite IH. tauto.
Qed.

Lemma dict_get_Some_elem k v d : dict_get k d = Some v -> (k, v) ∈ d.
Proof.
  induction d as [|[k' v'] d IH]; simpl; [done|].
  destruct (String.eqb_spec k k') as [->|Hne].
  - intros [= ->]. left.
  - intros H. right. auto.
Qed.

Lemma dict_elem_get k v d : dict_wf d -> (k, v) ∈ d -> dict_get k d = Some v.
Proof.
  unfold dict_wf. induction d as [|[k' v'] d IH]; simpl.
  - intros _ H. by apply elem_of_nil in H.
  - rewrite NoDup_cons. intros [Hk Hd] [[= <- <-]|Hin]%elem_of_cons.
    + by rewrite String.eqb_refl.
    + destruct (String.eqb_spec k k') as [->|Hne]; [|auto].
      destruct Hk. apply list_elem_of_fmap. by exists (k', v).
Qed.

Lemma dict_set_absent k v d : k ∉ d.*1 -> dict_set k v d = d ++ [(k, v)].
Proof.
  induction d as [|[k' v'] d IH]; simpl; [done|].
  rewrite not_elem_of_cons. intros [Hne Hk].
  destruct (String.eqb_spec k k'); [done|]. by rewrite IH.
Qed.

Lemma dict_set_keys_present k v d :
  k ∈ d.*1 -> (dict_set k v d).*1 = d.*1.
Proof.
  induction d as [|[k' v'] d IH]; simpl.
  - intros H. by apply elem_of_nil in H.
  - intros Hin. destruct (String.eqb_spec k k') as [->|Hne]; [done|].
    simpl. f_equal. apply IH.
    apply elem_of_cons in Hin as [?|?]; done.
Qed.

Lemma dict_set_wf k v d : dict_wf d -> dict_wf (dict_set k v d).
Proof.
  unfold dict_wf. intros Hd.
  destruct (decide (k ∈ d.*1)) as [Hin|Hout].
  - by rewrite dict_set_keys_present.
  - rewrite dict_set_absent, fmap_app by done. simpl.
    apply NoDup_app. split_and!; [done| |apply NoDup_singleton].
    intros x Hx ->%list_elem_of_singleton. done.
Qed.

Lemma dict_del_sublist k d : dict_del k d `sublist_of` d.
Proof.
  induction d as [|[k' v'] d IH]; simpl; [done|].
  destruct (String.eqb k k').
  - by apply sublist_cons.
  - by apply sublist_skip.
Qed.

Lemma dict_del_wf k d : dict_wf d -> dict_wf (dict_del k d).
Proof.
  unfold dict_wf. intros Hd.
  apply (sublist_NoDup _ (d.*1)); [done|].
  apply fmap_sublist, dict_del_sublist.
Qed.

Lemma dict_get_del_eq k d : dict_wf d -> dict_get k (dict_del k d) = None.
Proof.
  unfold dict_wf. induction d as [|[k' v'] d IH]; simpl; [done|].
  rewrite NoDup_cons. intros [Hk Hd].
  destruct (String.eqb_spec k k') as [->|Hne].
  - by apply dict_get_None.
  - simpl. destruct (String.eqb_spec k k'); [done|]. auto.
Qed.


Lemma dict_del_keys k d : dict_wf d -> k ∉ (dict_del k d).*1.
Proof. intros Hd. by apply dict_get_None, dict_get_del_eq. Qed.

Lemma dict_update_app d items :
  NoDup ((d ++ items).*1) -> dict_update d items = d ++ items.
Proof.
  unfold dict_update. revert d.
  induction items as [|[k v] items IH]; intros d Hnd; simpl.
  - by rewrite app_nil_r.
  - rewrite dict_set_absent.
    + rewrite IH; rewrite <- app_assoc; done.
    + rewrite fmap_app in Hnd. apply NoDup_app in Hnd as (_ & Hdisj & _).
      intros Hk. apply (Hdisj k Hk). simpl. left.
Qed.

Lemma dict_update_wf d items : dict_wf d -> dict_wf (dict_update d items).
Proof.
  unfold dict_update. revert d.
  induction items as [|[k v] items IH]; intros d Hd; simpl; [done|].
  apply IH. by apply dict_set_wf.
Qed.

Lemma dict_get_Permutation d1 d2 :
  dict_wf d1 -> d1 ≡ₚ d2 -> dict_eq d1 d2.
Proof.
  intros Hwf1 Hp k.
  assert (Hwf2 : dict_wf d2) by (unfold dict_wf; by rewrite <- Hp).
  destruct (dict_get k d1) as [v|] eqn:H1.
  - symmetry. apply dict_elem_get; [done|].
    rewrite <- Hp. by apply dict_get_Some_elem.
  - symmetry. apply dict_get_None. rewrite <- Hp. by apply dict_get_None.
Qed.
End dict_facts.

(** ** Facts about [strip] *)

Lemma lstrip_head_ok s : head_ok (lstrip s).
Proof.
  induction s as [|c s IH]; simpl; [done|].
  destruct (isspace c) eqn:Hc; [done|]. simpl. done.
Qed.

Lemma lstrip_fixed s : head_ok s -> lstrip s = s.
Proof. destruct s as [|c s]; simpl; [done|]. by intros ->. Qed.

Lemma rstrip_head_ok s : head_ok s -> head_ok (rstrip s).
Proof.
  destruct s as [|c s]; simpl; [done|]. intros Hc.
  destruct (rstrip s); rewrite ?Hc; simpl; done.
Qed.

Lemma rstrip_idemp s : rstrip (rstrip s) = rstrip s.
Proof.
  induction s as [|c s IH]; simpl; [done|].
  destruct (rstrip s) as [|c' r] eqn:Hr.
  - destruct (isspace c) eqn:Hc; simpl; [done|]. by rewrite Hc.
  - change (rstrip (String c (String c' r))) with
      (match rstrip (String c' r) with
       | EmptyString =>
           if isspace c then EmptyString else String c EmptyString
       | r0 => String c r0
       end).
    by rewrite IH.
Qed.

Lemma strip_idemp s : strip (strip s) = strip s.
Proof.
  unfold strip.
  rewrite (lstrip_fixed (rstrip (lstrip s))).
  - apply rstrip_idemp.
  - apply rstrip_head_ok, lstrip_head_ok.
Qed.

Lemma str_is_empty_false s : s <> "" -> str_is_empty s = false.
Proof. by destruct s. Qed.

Lemma str_is_empty_true s : str_is_empty s = true -> s = "".
Proof. by destruct s. Qed.

Example strip_examples :
  strip "  apple " = "apple" /\ strip "   " = "" /\ strip "" = ""
  /\ strip "a b" = "a b"
  /\ strip (String (ascii_of_N 9) (String (ascii_of_N 10) "")) = "".
Proof. vm_compute. auto. Qed.

(** ** Running the operations *)

Lemma add_item_ok w name n logs stamp :
  strip name <> "" -> (0 <= int_value n)%Z ->
  add_item (PyStr name) (PyInt n) logs stamp w
  = (Return (match logs with None => [] | Some l => l end
             ++ [stamp +:+ ": Added " +:+ py_str n +:+ " of " +:+ name]),
     World (dict_set name (PInt (int_value (stored name w) + int_value n))
              (stock_data w))
           (files w)
           (logging w ++ [(INFO, "Added " +:+ py_str n +:+ " of " +:+ name)])
           (stdout w)).
Proof.
  intros Hname Hn. run.
  rewrite (str_is_empty_false _ Hname).
  destruct (Z.ltb_spec (int_value n) 0); [lia|]. done.
Qed.

Lemma get_qty_ok w name :
  strip name <> "" -> get_qty (PyStr name) w = (Return (stored name w), w).
Proof. intros Hname. run. by rewrite (str_is_empty_false _ Hname). Qed.

(** What [remove_item] does on valid arguments. *)
Lemma remove_item_ok w name n :
  strip name <> "" -> (0 < int_value n)%Z ->
  remove_item (PyStr name) (PyInt n) w
  = match dict_get name (stock_data w) with
    | None =>
        (Return tt,
         World (stock_data w) (files w)
               (logging w
                ++ [(WARNING, "Tried removing missing item " +:+ name)])
               (stdout w))
    | Some cur =>
        let left := (int_value cur - int_value n)%Z in
        if (left <=? 0)%Z
        then
          (Return tt,
           World (dict_del name (dict_set name (PInt left) (stock_data w)))
                 (files w)
                 (logging w
                  ++ [(INFO, "Removed item " +:+ name +:+ " completely")])
                 (stdout w))
        else
          (Return tt,
           World (dict_set name (PInt left) (stock_data w)) (files w)
                 (logging w
                  ++ [(INFO, "New qty for " +:+ name +:+ ": "
                             +:+ py_str (PInt left))])
                 (stdout w))
    end.
Proof.
  intros Hname Hn. run.
  rewrite (str_is_empty_false _ Hname).
  destruct (Z.leb_spec (int_value n) 0); [lia|].
  destruct (dict_get name (stock_data w)) as [cur|] eqn:Hcur; [|done].
  rewrite Hcur. simpl. rewrite dict_get_set_eq. simpl.
  destruct (int_value cur - int_value n <=? 0)%Z; simpl; [done|].
  by rewrite dict_get_set_eq.
Qed.

Lemma lstrip_empty_iff s : lstrip s = "" <-> all_space s = true.
Proof.
  induction s as [|c s IH]; simpl; [done|].
  destruct (isspace c); simpl; [done|]. split; discriminate.
Qed.

Lemma rstrip_empty_iff s : head_ok s -> rstrip s = "" <-> s = "".
Proof.
  destruct s as [|c s]; simpl; [done|]. intros ->.
  destruct (rstrip s); split; discriminate.
Qed.

Lemma strip_empty_iff s : strip s = "" <-> all_space s = true.
Proof.
  unfold strip. rewrite (rstrip_empty_iff _ (lstrip_head_ok s)).
  apply lstrip_empty_iff.
Qed.

(** ** Adding and querying *)

(** C2. For a valid item name and a non-negative integer [qty], [add] then
    [get_quantity] returns the quantity [get_quantity] returned before the
    add (0 for an absent item) plus [qty]. *)
Theorem add_then_get_qty w name n logs stamp :
  strip name <> "" -> (0 <= int_value n)%Z ->
  exists before out,
    (get_qty (PyStr name) w).1 = Return before
    /\ (add_item (PyStr name) (PyInt n) logs stamp w).1 = Return out
    /\ (get_qty (PyStr name)
          (add_item (PyStr name) (PyInt n) logs stamp w).2).1
       = Return (PInt (int_value before + int_value n))
    /\ (dict_get name (stock_data w) = None -> before = PInt 0).
Proof.
  intros Hname Hn.
  rewrite (add_item_ok _ _ _ _ _ Hname Hn), !(get_qty_ok _ _ Hname).
  eexists _, _. split_and!; try done.
  - simpl. unfold stored at 1. simpl. by rewrite dict_get_set_eq.
  - unfold stored. by intros ->.
Qed.

Lemma add_then_get_qty_witness :
  strip "apple" <> "" /\ (0 <= int_value (PInt 4))%Z
  /\ exists before out,
       (get_qty (PyStr "apple") sample_world).1 = Return before
       /\ (add_item (PyStr "apple") (PyInt (PInt 4)) None "t"
             sample_world).1 = Return out
       /\ (get_qty (PyStr "apple")
             (add_item (PyStr "apple") (PyInt (PInt 4)) None "t"
                sample_world).2).1
          = Return (PInt (int_value before + int_value (PInt 4)))
       /\ (dict_get "apple" (stock_data sample_world) = None ->
           before = PInt 0).
Proof.
  split; [vm_compute; discriminate|].
  split; [vm_compute; discriminate|].
  apply (add_then_get_qty sample_world "apple" (PInt 4) None "t").
  - vm_compute; discriminate.
  - vm_compute; discriminate.
Defined.

Example add_then_get_qty_run :
  (get_qty (PyStr "apple")
     (add_item (PyStr "apple") (PyInt (PInt 4)) None "t" sample_world).2).1
  = Return (PInt 7)
  /\ (get_qty (PyStr "kiwi")
        (add_item (PyStr "kiwi") (PyInt (PInt 4)) None "t" sample_world).2).1
     = Return (PInt 4).
Proof. vm_compute. auto. Qed.

(** ** Removing *)



(** C6. For a valid item name absent from the store and a positive integer
    [qty], [remove] returns without raising and leaves the store as it was:
    no entry is created; a warning is logged. *)
Theorem remove_item_absent w name n :
  strip name <> "" ->
  (0 < int_value n)%Z ->
  dict_get name (stock_data w) = None ->
  (remove_item (PyStr name) (PyInt n) w).1 = Return tt
  /\ stock_data (remove_item (PyStr name) (PyInt n) w).2 = stock_data w
  /\ dict_get name (stock_data (remove_item (PyStr name) (PyInt n) w).2)
     = None
  /\ files (remove_item (PyStr name) (PyInt n) w).2 = files w
  /\ logging (remove_item (PyStr name) (PyInt n) w).2
     = logging w ++ [(WARNING, "Tried removing missing item " +:+ name)].
Proof.
  intros Hname Hn Habs.
  rewrite (remove_item_ok _ _ _ Hname Hn), Habs. simpl. by split_and!.
Qed.

Lemma remove_item_absent_witness :
  strip "orange" <> ""
  /\ (0 < int_value (PInt 1))%Z
  /\ dict_get "orange" (stock_data sample_world) = None
  /\ (remove_item (PyStr "orange") (PyInt (PInt 1)) sample_world).1
     = Return tt
  /\ stock_data (remove_item (PyStr "orange") (PyInt (PInt 1))
                   sample_world).2
     = stock_data sample_world.
Proof.
  split_and!; [vm_compute; discriminate|reflexivity|reflexivity| |];
    apply (remove_item_absent sample_world "orange" (PInt 1));
    solve [vm_compute; discriminate | reflexivity].
Defined.

(** ** Invalid arguments *)

Lemma bad_item_add w name qty logs stamp :
  all_space name = true ->
  rejected (add_item (PyStr name) qty logs stamp w) w.
Proof.
  intros Hs%strip_empty_iff. run. rewrite Hs. simpl. split; eauto.
Qed.

Lemma bad_item_remove w name qty :
  all_space name = true -> rejected (remove_item (PyStr name) qty w) w.
Proof.
  intros Hs%strip_empty_iff. run. rewrite Hs. simpl. split; eauto.
Qed.

Lemma bad_item_get w name :
  all_space name = true -> rejected (get_qty (PyStr name) w) w.
Proof.
  intros Hs%strip_empty_iff. run. rewrite Hs. simpl. split; eauto.
Qed.

Lemma bad_qty_add w item qty logs stamp :
  negative_or_non_int qty -> rejected (add_item item qty logs stamp w) w.
Proof.
  intros Hq. run.
  destruct item; try (split; eauto; fail).
  destruct (str_is_empty (strip s)); [split; eauto|].
  destruct Hq as [Hq|(n & -> & Hn)].
  - destruct qty; try discriminate; split; eauto.
  - destruct (Z.ltb_spec (int_value n) 0); [|lia]. split; eauto.
Qed.

Lemma bad_qty_remove w item qty :
  non_positive_or_non_int qty -> rejected (remove_item item qty w) w.
Proof.
  intros Hq. run.
  destruct item; try (split; eauto; fail).
  destruct (str_is_empty (strip s)); [split; eauto|].
  destruct Hq as [Hq|(n & -> & Hn)].
  - destruct qty; try discriminate; split; eauto.
  - destruct (Z.leb_spec (int_value n) 0); [|lia]. split; eauto.
Qed.

Lemma bad_threshold w t :
  negative_or_non_int t -> rejected (check_low_items t w) w.
Proof.
  intros Hq. run.
  destruct Hq as [Hq|(n & -> & Hn)].
  - destruct t; try discriminate; split; eauto.
  - destruct (Z.ltb_spec (int_value n) 0); [|lia]. split; eauto.
Qed.

(** C4. Invalid input is refused with [ValueError] and the state stays as it
    was: an empty or all-white-space item name given to [add], [remove] or
    [get_quantity]; a quantity given to [add] that is negative or not an
    [int]; a quantity given to [remove] that is not positive or not an
    [int]; a threshold given to [list_low_stock] that is negative or not an
    [int].  "Not an [int]" is [isinstance(v, int)] failing, as the code
    tests it. *)
Theorem invalid_input_rejected w :
  (forall name qty logs stamp,
     all_space name = true ->
     rejected (add_item (PyStr name) qty logs stamp w) w)
  /\ (forall name qty,
        all_space name = true ->
        rejected (remove_item (PyStr name) qty w) w)
  /\ (forall name,
        all_space name = true -> rejected (get_qty (PyStr name) w) w)
  /\ (forall item qty logs stamp,
        negative_or_non_int qty ->
        rejected (add_item item qty logs stamp w) w)
  /\ (forall item qty,
        non_positive_or_non_int qty ->
        rejected (remove_item item qty w) w)
  /\ (forall t,
        negative_or_non_int t -> rejected (check_low_items t w) w).
Proof.
  split_and!.
  - apply bad_item_add.
  - apply bad_item_remove.
  - apply bad_item_get.
  - apply bad_qty_add.
  - apply bad_qty_remove.
  - apply bad_threshold.
Qed.

Lemma invalid_input_rejected_witness :
  rejected (add_item (PyStr "  ") (PyInt (PInt 1)) None "t" sample_world)
    sample_world
  /\ rejected (remove_item (PyStr "") (PyInt (PInt 1)) sample_world)
       sample_world
  /\ rejected (get_qty (PyStr " ") sample_world) sample_world
  /\ rejected (add_item (PyStr "apple") (PyInt (PInt (-1))) None "t"
                 sample_world) sample_world
  /\ rejected (add_item (PyStr "apple") (PyFloat 3 (-1)) None "t"
                 sample_world) sample_world
  /\ rejected (remove_item (PyStr "apple") (PyInt (PInt 0)) sample_world)
       sample_world
  /\ rejected (remove_item (PyStr "apple") (PyStr "2") sample_world)
       sample_world
  /\ rejected (check_low_items (PyInt (PInt (-5))) sample_world)
       sample_world
  /\ rejected (check_low_items PyNone sample_world) sample_world.
Proof.
  pose proof (invalid_input_rejected sample_world)
    as (Ha & Hr & Hg & Hqa & Hqr & Ht).
  split_and!.
  - apply Ha. reflexivity.
  - apply Hr. reflexivity.
  - apply Hg. reflexivity.
  - apply Hqa. right. exists (PInt (-1)). split; [reflexivity|].
    vm_compute. reflexivity.
  - apply Hqa. left. reflexivity.
  - apply Hqr. right. exists (PInt 0). split; [reflexivity|].
    vm_compute. discriminate.
  - apply Hqr. left. reflexivity.
  - apply Ht. right. exists (PInt (-5)). split; [reflexivity|].
    vm_compute. reflexivity.
  - apply Ht. left. reflexivity.
Defined.

(** A boolean passes [isinstance(qty, int)]: [True] is added as 1. *)
Example add_item_bool_qty :
  add_item (PyStr "apple") (PyInt (PBool true)) None "t" sample_world
  = (Return ["t: Added True of apple"],
     World [("apple", PInt 4); ("pear", PInt 8); ("banana", PInt 2)] ∅
           [(INFO, "Added True of apple")] []).
Proof. reflexivity. Qed.

(** An item that is not a string is refused as well. *)
Lemma non_str_item_rejected w item qty logs stamp :
  isinstance_str item = false ->
  rejected (add_item item qty logs stamp w) w
  /\ rejected (remove_item item qty w) w
  /\ rejected (get_qty item w) w.
Proof.
  intros Hi. destruct item; try discriminate; run;
    (split_and!; split; eauto).
Qed.

(** ** Keys are stored as passed *)

(** C10. A name with white space around a non-empty core is accepted and
    stored under the untrimmed string: after [add] the untrimmed key holds
    the sum, and the trimmed form reads as before the call, 0 when it was
    never added. *)
Theorem add_item_key_untrimmed w name n logs stamp :
  strip name <> "" ->
  strip name <> name ->
  (0 <= int_value n)%Z ->
  (exists out,
     (add_item (PyStr name) (PyInt n) logs stamp w).1 = Return out)
  /\ dict_get name
       (stock_data (add_item (PyStr name) (PyInt n) logs stamp w).2)
     = Some (PInt (int_value (stored name w) + int_value n))
  /\ dict_get (strip name)
       (stock_data (add_item (PyStr name) (PyInt n) logs stamp w).2)
     = dict_get (strip name) (stock_data w)
  /\ (get_qty (PyStr (strip name))
        (add_item (PyStr name) (PyInt n) logs stamp w).2).1
     = (get_qty (PyStr (strip name)) w).1
  /\ (dict_get (strip name) (stock_data w) = None ->
      (get_qty (PyStr (strip name))
         (add_item (PyStr name) (PyInt n) logs stamp w).2).1
      = Return (PInt 0)).
Proof.
  intros Hname Hdiff Hn.
  assert (Hcore : strip (strip name) <> "") by (by rewrite strip_idemp).
  rewrite (add_item_ok _ _ _ _ _ Hname Hn), !(get_qty_ok _ _ Hcore).
  assert (Hsame : stored (strip name)
            (World (dict_set name
                      (PInt (int_value (stored name w) + int_value n))
                      (stock_data w))
                   (files w)
                   (logging w
                    ++ [(INFO, "Added " +:+ py_str n +:+ " of " +:+ name)])
                   (stdout w))
          = stored (strip name) w).
  { unfold stored. simpl. by rewrite dict_get_set_ne. }
  simpl. rewrite Hsame, dict_get_set_eq, dict_get_set_ne by done.
  split_and!; eauto. unfold stored. by intros ->.
Qed.

Lemma add_item_key_untrimmed_witness :
  strip "  apple " <> ""
  /\ strip "  apple " <> "  apple "
  /\ (0 <= int_value (PInt 6))%Z
  /\ dict_get "  apple "
       (stock_data (add_item (PyStr "  apple ") (PyInt (PInt 6)) None "t"
                      (initial ∅)).2)
     = Some (PInt (int_value (stored "  apple " (initial ∅))
                   + int_value (PInt 6)))
  /\ (get_qty (PyStr (strip "  apple "))
        (add_item (PyStr "  apple ") (PyInt (PInt 6)) None "t"
           (initial ∅)).2).1
     = Return (PInt 0).
Proof.
  destruct (add_item_key_untrimmed (initial ∅) "  apple " (PInt 6) None "t")
    as (_ & Hkey & _ & _ & Hzero);
    [vm_compute; discriminate|vm_compute; discriminate
    |vm_compute; discriminate|].
  split_and!; [vm_compute; discriminate|vm_compute; discriminate
              |vm_compute; discriminate|exact Hkey|].
  apply Hzero. reflexivity.
Defined.

Example add_item_key_untrimmed_run :
  stock_data (add_item (PyStr "  apple ") (PyInt (PInt 6)) None "t"
                sample_world).2
  = [("apple", PInt 3); ("pear", PInt 8); ("banana", PInt 2);
     ("  apple ", PInt 6)].
Proof. reflexivity. Qed.

(** ** Low stock *)

(** C7. For a non-negative integer threshold [t], [list_low_stock(t)]
    returns, without changing anything, a duplicate-free list holding
    exactly the names whose stored quantity is below [t]; on an empty store
    the list is empty. *)
Theorem check_low_items_exact w t :
  dict_wf (stock_data w) ->
  (0 <= int_value t)%Z ->
  exists names,
    check_low_items (PyInt t) w = (Return names, w)
    /\ (forall name,
          name ∈ names
          <-> exists q, dict_get name (stock_data w) = Some q
                        /\ (int_value q < int_value t)%Z)
    /\ NoDup names
    /\ (stock_data w = [] -> names = []).
Proof.
  intros Hwf Ht. run.
  destruct (Z.ltb_spec (int_value t) 0); [lia|].
  eexists. split; [reflexivity|]. split_and!.
  - intros name. rewrite list_elem_of_fmap. split.
    + intros ([k q] & -> & [Hq Hin]%list_elem_of_filter).
      exists q. split; [by apply dict_elem_get|done].
    + intros (q & Hget%dict_get_Some_elem & Hq).
      exists (name, q). split; [done|]. by apply list_elem_of_filter.
  - apply (sublist_NoDup _ ((stock_data w).*1)); [done|].
    apply fmap_sublist, sublist_filter.
  - by intros ->.
Qed.

Lemma sample_store_wf : dict_wf sample_store.
Proof. unfold dict_wf. apply (bool_decide_unpack _). by vm_compute. Qed.

Lemma check_low_items_exact_witness :
  dict_wf (stock_data sample_world)
  /\ (0 <= int_value (PInt 5))%Z
  /\ exists names,
       check_low_items (PyInt (PInt 5)) sample_world
       = (Return names, sample_world)
       /\ (forall name,
             name ∈ names
             <-> exists q, dict_get name (stock_data sample_world) = Some q
                           /\ (int_value q < int_value (PInt 5))%Z)
       /\ NoDup names
       /\ (stock_data sample_world = [] -> names = []).
Proof.
  split; [exact sample_store_wf|].
  split; [vm_compute; discriminate|].
  apply (check_low_items_exact sample_world (PInt 5)).
  - exact sample_store_wf.
  - vm_compute; discriminate.
Defined.

Example check_low_items_run :
  check_low_items (PyInt (PInt 5)) sample_world
  = (Return ["apple"; "banana"], sample_world)
  /\ check_low_items (PyInt (PInt 0)) sample_world
     = (Return [], sample_world)
  /\ check_low_items (PyInt (PInt 100)) (initial ∅)
     = (Return [], initial ∅).
Proof. vm_compute. auto. Qed.

(** ** Loading *)

Lemma load_data_absent w path :
  files w !! path = None ->
  load_data path w
  = (Return tt, World [] (files w) (logging w) (stdout w)).
Proof. intros Hp. run. rewrite Hp. done. Qed.

(** What [load_data] does when the file decodes to [data]. *)
Lemma load_data_doc w path j :
  files w !! path = Some (Doc j) ->
  load_data path w
  = match json_decode j with
    | PyDict items =>
        if forallb is_str_int_pair items
        then (Return tt,
              World (dict_update [] (str_int_items items)) (files w)
                    (logging w) (stdout w))
        else (Raise (ValueError "File format must be str -> int mapping"), w)
    | _ => (Raise (ValueError "Invalid file format: not an object"), w)
    end.
Proof.
  intros Hp. run. rewrite Hp. simpl. rewrite Hp.
  destruct (json_decode j) as [| | | | |items]; try done.
  by destruct (forallb is_str_int_pair items).
Qed.

(** C8. When no file exists at the path, [load] empties the store and
    returns without error, whatever the store held. *)
Theorem load_data_missing_clears w path :
  files w !! path = None ->
  (load_data path w).1 = Return tt
  /\ stock_data (load_data path w).2 = []
  /\ files (load_data path w).2 = files w.
Proof. intros Hp. by rewrite (load_data_absent _ _ Hp). Qed.

Lemma load_data_missing_clears_witness :
  files sample_world !! "missing.json" = None
  /\ (load_data "missing.json" sample_world).1 = Return tt
  /\ stock_data (load_data "missing.json" sample_world).2 = []
  /\ files (load_data "missing.json" sample_world).2 = files sample_world.
Proof.
  split; [reflexivity|].
  apply (load_data_missing_clears sample_world "missing.json").
  reflexivity.
Defined.

(** C9. For an existing file whose decoded JSON content is not an object,
    or has a key that is not a string, or a value that is not an [int],
    [load] raises [ValueError] and the state, the store included, is the
    one before the call. "Not an [int]" is [isinstance(v, int)] failing, as
    the code tests it. *)
Theorem load_data_invalid_format w path j :
  files w !! path = Some (Doc j) ->
  not_str_int_object (json_decode j) ->
  rejected (load_data path w) w.
Proof.
  intros Hp Hbad. rewrite (load_data_doc _ _ _ Hp).
  destruct Hbad as [Hnd|(items & k & v & -> & Hin & Hkv)].
  - destruct (json_decode j) as [| | | | |items]; try (split; eauto; fail).
    by destruct (Hnd items).
  - destruct (forallb is_str_int_pair items) eqn:Hall; [|split; eauto].
    apply Is_true_true_2, forallb_True in Hall.
    rewrite Forall_forall in Hall. apply Hall in Hin.
    unfold is_str_int_pair in Hin. simpl in Hin.
    apply andb_True in Hin as [Hk Hv].
    destruct Hkv as [Hkv|Hkv]; rewrite Hkv in *; done.
Qed.

Lemma load_data_invalid_format_witness :
  files ten_world !! "inventory.json"
  = Some (Doc (JObj [("apple", JStr "ten")]))
  /\ not_str_int_object (json_decode (JObj [("apple", JStr "ten")]))
  /\ rejected (load_data "inventory.json" ten_world) ten_world.
Proof.
  assert (Hbad : not_str_int_object
                   (json_decode (JObj [("apple", JStr "ten")]))).
  { right. exists [(PyStr "apple", PyStr "ten")], (PyStr "apple"), (PyStr "ten").
    split; [reflexivity|]. split; [left|]. right. reflexivity. }
  split; [reflexivity|]. split; [exact Hbad|].
  apply (load_data_invalid_format ten_world "inventory.json"
           (JObj [("apple", JStr "ten")])); [reflexivity|exact Hbad].
Defined.

Example load_data_invalid_format_run :
  load_data "inventory.json" ten_world
  = (Raise (ValueError "File format must be str -> int mapping"), ten_world)
  /\ load_data "inventory.json"
       (World sample_store {["inventory.json" := Doc (JArr [JInt 1])]} [] [])
     = (Raise (ValueError "Invalid file format: not an object"),
        World sample_store {["inventory.json" := Doc (JArr [JInt 1])]} [] []).
Proof. vm_compute. auto. Qed.

(** A JSON boolean decodes to a [bool], an instance of [int]: it loads. *)
Example load_data_bool_value :
  load_data "inventory.json"
    (World sample_store
           {["inventory.json" := Doc (JObj [("apple", JBool true)])]} [] [])
  = (Return tt,
     World [("apple", PBool true)]
           {["inventory.json" := Doc (JObj [("apple", JBool true)])]} [] []).
Proof. vm_compute. reflexivity. Qed.

(** Undecodable text and unreadable paths raise before any change. *)
Lemma load_data_unreadable w path :
  (forall raw, files w !! path = Some (Junk raw) ->
     load_data path w = (Raise JSONDecodeError, w))
  /\ (files w !! path = Some Dir -> load_data path w = (Raise OSError, w)).
Proof.
  split; [intros raw Hp|intros Hp]; run; rewrite Hp; simpl; by rewrite Hp.
Qed.

(** ** Saving, and loading what was saved *)

Lemma str_int_items_omap items : str_int_items items = omap as_str_int items.
Proof.
  induction items as [|[k v] items IH]; [done|].
  destruct k, v; simpl; rewrite ?IH; done.
Qed.

Lemma decoded_dumped kv : as_str_int (decoded (dumped kv)) = Some kv.
Proof. by destruct kv as [k [z|b]]. Qed.

Lemma is_str_int_pair_dumped kv : is_str_int_pair (decoded (dumped kv)).
Proof. by destruct kv as [k [z|b]]. Qed.

Lemma omap_cons_Some {A B : Type} (f : A -> option B) x y (l : list A) :
  f x = Some y -> omap f (x :: l) = y :: omap f l.
Proof. intros Hx. simpl. by rewrite Hx. Qed.

Lemma omap_decoded_dumped (d : dict pyint) :
  omap as_str_int (decoded <$> (dumped <$> d)) = d.
Proof.
  induction d as [|kv d IH]; [done|].
  rewrite !fmap_cons, (omap_cons_Some _ _ kv) by apply decoded_dumped.
  by rewrite IH.
Qed.

Lemma json_decode_object members :
  NoDup (members.*1) ->
  json_decode (JObj members) = PyDict (decoded <$> members).
Proof.
  intros Hnd. simpl. f_equal.
  rewrite dict_update_app.
  - simpl. rewrite <- list_fmap_compose. by apply list_fmap_ext.
  - simpl. rewrite <- list_fmap_compose.
    erewrite list_fmap_ext; [exact Hnd|]. by intros i [k v] _.
Qed.

Lemma json_dump_members (d : dict pyint) :
  exists members,
    json_dump d = JObj members
    /\ members ≡ₚ dumped <$> d
    /\ Sorted key_le members.
Proof.
  eexists. split; [reflexivity|]. split.
  - apply merge_sort_Permutation.
  - apply Sorted_merge_sort.
    intros a b. unfold key_le, str_le. apply String.leb_total.
Qed.

(** What [load] reads back from what [save] wrote. *)
Lemma decode_dump (d : dict pyint) :
  dict_wf d ->
  exists items,
    json_decode (json_dump d) = PyDict items
    /\ forallb is_str_int_pair items = true
    /\ str_int_items items ≡ₚ d
    /\ Sorted key_le (str_int_items items).
Proof.
  intros Hwf.
  destruct (json_dump_members d) as (members & -> & Hperm & Hsorted).
  assert (Hkeys : members.*1 ≡ₚ d.*1).
  { rewrite Hperm, <- list_fmap_compose. done. }
  exists (decoded <$> members). split_and!.
  - apply json_decode_object. by rewrite Hkeys.
  - apply Is_true_true_1, forallb_True.
    rewrite Hperm. apply Forall_fmap, Forall_fmap, Forall_true.
    intros kv. apply is_str_int_pair_dumped.
  - rewrite str_int_items_omap, Hperm. by rewrite omap_decoded_dumped.
  - rewrite str_int_items_omap.
    assert (Hall : Forall (fun m => exists kv, m = dumped kv) members).
    { rewrite Hperm. apply Forall_fmap, Forall_true. intros kv. by exists kv. }
    clear Hperm Hkeys.
    induction Hsorted as [|m members Hs IH Hhd]; [constructor|].
    apply Forall_cons in Hall as [[kv ->] Hall].
    rewrite fmap_cons, (omap_cons_Some _ _ kv) by apply decoded_dumped.
    constructor; [by apply IH|].
    destruct Hhd as [|m' members' Hle]; [constructor|].
    apply Forall_cons in Hall as [[kv' ->] _].
    rewrite fmap_cons, (omap_cons_Some _ _ kv') by apply decoded_dumped.
    constructor. exact Hle.
Qed.

Lemma save_data_ok w path :
  files w !! path <> Some Dir ->
  save_data path w
  = (Return tt,
     World (stock_data w)
           (<[path := Doc (json_dump (stock_data w))]> (files w))
           (logging w) (stdout w)).
Proof.
  intros Hp. run.
  destruct (files w !! path) as [[| |]|]; done.
Qed.

Lemma save_data_dir w path :
  files w !! path = Some Dir -> save_data path w = (Raise OSError, w).
Proof. intros Hp. run. by rewrite Hp. Qed.

(** C3. For a store (any well-formed one, so in particular one mapping valid
    item names to non-negative integers) and a path that can be written,
    [save] followed by [load] of the same path succeeds and leaves a store
    with the keys and values of the original: the same entries up to order,
    equal as dictionaries. The store comes from the file: [load] restores
    it from any state that has the saved file at the path, whatever store
    that state holds. *)
Theorem save_then_load w path :
  dict_wf (stock_data w) ->
  files w !! path <> Some Dir ->
  (save_data path w).1 = Return tt
  /\ (load_data path (save_data path w).2).1 = Return tt
  /\ stock_data (load_data path (save_data path w).2).2 ≡ₚ stock_data w
  /\ dict_eq (stock_data (load_data path (save_data path w).2).2)
             (stock_data w)
  /\ dict_wf (stock_data (load_data path (save_data path w).2).2)
  /\ (forall w',
        files w' !! path = files (save_data path w).2 !! path ->
        (load_data path w').1 = Return tt
        /\ stock_data (load_data path w').2 ≡ₚ stock_data w
        /\ dict_eq (stock_data (load_data path w').2) (stock_data w)
        /\ dict_wf (stock_data (load_data path w').2)).
Proof.
  intros Hwf Hp.
  assert (Hload : forall w',
             files w' !! path = files (save_data path w).2 !! path ->
             (load_data path w').1 = Return tt
             /\ stock_data (load_data path w').2 ≡ₚ stock_data w
             /\ dict_eq (stock_data (load_data path w').2) (stock_data w)
             /\ dict_wf (stock_data (load_data path w').2)).
  { intros w'. rewrite (save_data_ok _ _ Hp). simpl.
    rewrite lookup_insert_eq. intros Hfile.
    destruct (decode_dump (stock_data w) Hwf)
      as (items & Hdec & Hall & Hperm & _).
    rewrite (load_data_doc _ _ _ Hfile), Hdec, Hall. simpl.
    assert (Hnd : dict_wf (str_int_items items))
      by (unfold dict_wf; by rewrite Hperm).
    rewrite dict_update_app by done. simpl.
    split_and!; try done.
    apply dict_get_Permutation; done. }
  destruct (Hload (save_data path w).2 eq_refl) as (Hret & Hperm & Heq & Hnd).
  split_and!; try done.
  by rewrite (save_data_ok _ _ Hp).
Qed.

Lemma save_then_load_witness :
  dict_wf (stock_data sample_world)
  /\ files sample_world !! "inventory.json" <> Some Dir
  /\ (save_data "inventory.json" sample_world).1 = Return tt
  /\ (load_data "inventory.json"
        (save_data "inventory.json" sample_world).2).1 = Return tt
  /\ stock_data (load_data "inventory.json"
                   (save_data "inventory.json" sample_world).2).2
     ≡ₚ stock_data sample_world
  /\ dict_eq (stock_data (load_data "inventory.json"
                            (save_data "inventory.json" sample_world).2).2)
             (stock_data sample_world)
  /\ dict_wf (stock_data (load_data "inventory.json"
                            (save_data "inventory.json" sample_world).2).2)
  /\ (files (World [("kiwi", PInt 1)]
                   (files (save_data "inventory.json" sample_world).2) [] [])
        !! "inventory.json"
      = files (save_data "inventory.json" sample_world).2 !! "inventory.json"
      /\ (load_data "inventory.json"
            (World [("kiwi", PInt 1)]
                   (files (save_data "inventory.json" sample_world).2)
                   [] [])).1 = Return tt
      /\ stock_data
           (load_data "inventory.json"
              (World [("kiwi", PInt 1)]
                     (files (save_data "inventory.json" sample_world).2)
                     [] [])).2
         ≡ₚ stock_data sample_world).
Proof.
  destruct (save_then_load sample_world "inventory.json")
    as (Hsave & Hret & Hperm & Heq & Hnd & Hany);
    [exact sample_store_wf|vm_compute; discriminate|].
  destruct (Hany (World [("kiwi", PInt 1)]
                    (files (save_data "inventory.json" sample_world).2)
                    [] []) eq_refl)
    as (Hret' & Hperm' & _).
  split; [exact sample_store_wf|].
  split; [vm_compute; discriminate|].
  split_and!; try done.
Defined.

Example save_then_load_run :
  stock_data (load_data "inventory.json"
                (save_data "inventory.json" sample_world).2).2
  = [("apple", PInt 3); ("banana", PInt 2); ("pear", PInt 8)]
  /\ files (save_data "inventory.json" sample_world).2 !! "inventory.json"
     = Some (Doc (JObj [("apple", JInt 3); ("banana", JInt 2);
                        ("pear", JInt 8)])).
Proof. vm_compute. auto. Qed.

(** Loading the saved file over a different store brings the saved entries
    back and drops what was there. *)
Example save_then_load_over_other_store :
  stock_data
    (load_data "inventory.json"
       (World [("kiwi", PInt 1)]
              (files (save_data "inventory.json" sample_world).2) [] [])).2
  = [("apple", PInt 3); ("banana", PInt 2); ("pear", PInt 8)].
Proof. by vm_compute. Qed.

(** ** Reachable states and the sign of stored quantities *)

Section value_invariants.
Context {V : Type} (Q : V -> Prop).
Implicit Types (d : dict V).

Lemma dict_set_Forall k v d :
  holds Q d -> Q v -> holds Q (dict_set k v d).
Proof.
  unfold holds. intros Hd Hv.
  induction Hd as [|[k' v'] d Hkv Hd IH]; simpl.
  - by repeat constructor.
  - destruct (String.eqb k k'); constructor; done.
Qed.

Lemma dict_del_set k v d : dict_del k (dict_set k v d) = dict_del k d.
Proof.
  induction d as [|[k' v'] d IH]; simpl.
  - by rewrite String.eqb_refl.
  - destruct (String.eqb k k') eqn:Hk; simpl; rewrite Hk; [done|].
    by rewrite IH.
Qed.

Lemma dict_del_Forall k d : holds Q d -> holds Q (dict_del k d).
Proof.
  unfold holds. intros Hd.
  induction Hd as [|[k' v'] d Hkv Hd IH]; simpl; [constructor|].
  destruct (String.eqb k k'); [done|]. by constructor.
Qed.

Lemma dict_get_Forall k v d : holds Q d -> dict_get k d = Some v -> Q v.
Proof.
  unfold holds. intros Hd Hget%dict_get_Some_elem.
  rewrite Forall_forall in Hd. by apply (Hd (k, v)).
Qed.
End value_invariants.

Lemma print_data_stock w : stock_data (print_data w).2 = stock_data w.
Proof.
  unfold print_data, py_bind, print. simpl.
  generalize (sorted_keys (stock_data w)).
  generalize (stdout w ++ ["Items Report"]).
  generalize (logging w). generalize (files w).
  intros fs lg out names. revert out.
  induction names as [|name names IH]; intros out; simpl; [done|].
  unfold stock_getitem, py_bind, read_stock, py_ret, raise. simpl.
  destruct (dict_get name (stock_data w)); simpl; [|done].
  apply IH.
Qed.

(** Calls other than [add], [remove] and [load] leave the store alone. *)
Lemma exec_reads_stock c w :
  match c with
  | CallAdd _ _ _ _ | CallRemove _ _ | CallLoad _ => True
  | _ => stock_data (exec c w) = stock_data w
  end.
Proof.
  destruct c as [| |item| |p| |t]; simpl; try done.
  - run. destruct item; try done. by destruct (str_is_empty (strip s)).
  - run. by destruct (files w !! p) as [[| |]|].
  - apply print_data_stock.
  - run. destruct t as [|n| | | |]; try done.
    by destruct (int_value n <? 0)%Z.
Qed.

(** [add] keeps every quantity at least 0. *)
Lemma add_item_nonneg w item qty logs stamp :
  all_nonneg (stock_data w) ->
  all_nonneg (stock_data (add_item item qty logs stamp w).2).
Proof.
  intros Hinv. run.
  destruct item as [| | |name| |]; try done.
  destruct (str_is_empty (strip name)); [done|].
  destruct qty as [|n| | | |]; try done.
  destruct (Z.ltb_spec (int_value n) 0); [done|]. simpl.
  apply (dict_set_Forall (fun v => (0 <= int_value v)%Z)); [done|]. simpl.
  destruct (dict_get name (stock_data w)) as [old|] eqn:Hold; simpl; [|lia].
  pose proof (dict_get_Forall (fun v => (0 <= int_value v)%Z) _ _ _
                Hinv Hold). simpl in *. lia.
Qed.

(** [add] keeps every quantity above 0 unless it adds 0. *)
Lemma add_item_positive w item qty logs stamp :
  all_positive (stock_data w) ->
  (forall n, qty = PyInt n -> int_value n <> 0%Z) ->
  all_positive (stock_data (add_item item qty logs stamp w).2).
Proof.
  intros Hinv Hq. run.
  destruct item as [| | |name| |]; try done.
  destruct (str_is_empty (strip name)); [done|].
  destruct qty as [|n| | | |]; try done.
  specialize (Hq n eq_refl).
  destruct (Z.ltb_spec (int_value n) 0); [done|]. simpl.
  apply (dict_set_Forall (fun v => (0 < int_value v)%Z)); [done|]. simpl.
  destruct (dict_get name (stock_data w)) as [old|] eqn:Hold; simpl; [|lia].
  pose proof (dict_get_Forall (fun v => (0 < int_value v)%Z) _ _ _
                Hinv Hold). simpl in *. lia.
Qed.

(** [remove] keeps whatever holds of every stored quantity, provided it
    holds of the positive integers: a non-positive remainder is deleted. *)
Lemma remove_item_Forall (Q : pyint -> Prop) w item qty :
  (forall z, (0 < z)%Z -> Q (PInt z)) ->
  holds Q (stock_data w) ->
  holds Q (stock_data (remove_item item qty w).2).
Proof.
  intros HQ Hinv.
  destruct item as [| | |name| |]; try done.
  destruct (str_is_empty (strip name)) eqn:Hname;
    [by run; rewrite Hname|].
  destruct qty as [|n| | | |]; try (by run; rewrite Hname).
  destruct (Z.leb_spec (int_value n) 0) as [Hn|Hn].
  - run. rewrite Hname. by destruct (Z.leb_spec (int_value n) 0); [|lia].
  - rewrite remove_item_ok; [|by destruct (strip name)|done].
    destruct (dict_get name (stock_data w)) as [cur|]; [|done]. simpl.
    destruct (Z.leb_spec (int_value cur - int_value n) 0); simpl.
    + rewrite dict_del_set. by apply dict_del_Forall.
    + apply dict_set_Forall; [done|]. by apply HQ.
Qed.

(** The entries [load] installs. *)
Lemma json_decode_dict j items :
  json_decode j = PyDict items -> NoDup (items.*1).
Proof.
  destruct j; simpl; try discriminate. intros [= <-].
  rewrite <- list_fmap_compose.
  erewrite (list_fmap_ext _ (PyStr ∘ fst)); [|by intros i [k v] _].
  rewrite list_fmap_compose.
  assert (Hinj : Inj (=) (=) PyStr) by (by intros k1 k2 [= ->]).
  apply (NoDup_fmap_2 PyStr). apply (dict_update_wf []). constructor.
Qed.

Lemma str_int_items_keys items :
  forallb is_str_int_pair items = true ->
  PyStr <$> (str_int_items items).*1 = items.*1.
Proof.
  induction items as [|[k v] items IH]; [done|].
  simpl. intros [Hkv Hrest]%andb_true_iff.
  destruct k; try discriminate. destruct v; try discriminate.
  simpl. f_equal. by apply IH.
Qed.

Lemma str_int_items_elem k n items :
  (k, n) ∈ str_int_items items <-> (PyStr k, PyInt n) ∈ items.
Proof.
  rewrite str_int_items_omap, list_elem_of_omap. split.
  - intros ([k' v'] & Hin & Hkv).
    destruct k'; try discriminate. destruct v'; try discriminate.
    by injection Hkv as -> ->.
  - intros Hin. by exists (PyStr k, PyInt n).
Qed.

Lemma load_data_entries w path j items :
  files w !! path = Some (Doc j) ->
  json_decode j = PyDict items ->
  (load_data path w).1 = Return tt ->
  dict_wf (stock_data (load_data path w).2)
  /\ forall k n,
       dict_get k (stock_data (load_data path w).2) = Some n
       <-> (PyStr k, PyInt n) ∈ items.
Proof.
  intros Hp Hdec. rewrite (load_data_doc _ _ _ Hp), Hdec.
  destruct (forallb is_str_int_pair items) eqn:Hall; [|discriminate].
  intros _. simpl.
  assert (Hwf : dict_wf (str_int_items items)).
  { unfold dict_wf. apply (NoDup_fmap_1 PyStr).
    rewrite str_int_items_keys by done. by apply (json_decode_dict j). }
  rewrite dict_update_app by done. simpl. split; [done|].
  intros k n. rewrite <- str_int_items_elem. split.
  - apply dict_get_Some_elem.
  - by apply dict_elem_get.
Qed.

(** States reached without [load] hold no negative quantity. *)
Lemma reachable_nonneg w :
  reachable_with (fun c => ~ is_load c) w -> all_nonneg (stock_data w).
Proof.
  induction 1 as [fs|c w Hc Hw IH]; [constructor|].
  pose proof (exec_reads_stock c w) as Hread.
  destruct c; simpl in *; try (by rewrite Hread).
  - by apply add_item_nonneg.
  - apply remove_item_Forall; [intros; simpl; lia|done].
  - by destruct Hc.
Qed.

(** Every reachable store is a dictionary: its keys are distinct. *)
Lemma reachable_wf w : reachable w -> dict_wf (stock_data w).
Proof.
  induction 1 as [fs|c w _ Hw IH]; [constructor|].
  pose proof (exec_reads_stock c w) as Hread.
  destruct c as [item qty logs stamp|item qty| |p| | |]; simpl in *;
    try (by rewrite Hread).
  - run. destruct item as [| | |name| |]; try done.
    destruct (str_is_empty (strip name)); [done|].
    destruct qty as [|n| | | |]; try done.
    destruct (int_value n <? 0)%Z; [done|]. simpl. by apply dict_set_wf.
  - destruct item as [| | |name| |]; try done.
    destruct (str_is_empty (strip name)) eqn:Hname;
      [by run; rewrite Hname|].
    destruct qty as [|n| | | |]; try (by run; rewrite Hname).
    destruct (Z.leb_spec (int_value n) 0) as [Hn|Hn].
    + run. rewrite Hname. by destruct (Z.leb_spec (int_value n) 0); [|lia].
    + rewrite remove_item_ok; [|by destruct (strip name)|done].
      destruct (dict_get name (stock_data w)) as [cur|]; [|done]. simpl.
      destruct (int_value cur - int_value n <=? 0)%Z; simpl.
      * by apply dict_del_wf, dict_set_wf.
      * by apply dict_set_wf.
  - run. destruct (files w !! p) as [[|j|]|] eqn:Hp; simpl;
      rewrite ?Hp; try done; [|constructor].
    destruct (json_decode j) as [| | | | |items]; try done.
    destruct (forallb is_str_int_pair items); simpl; [|done].
    apply (dict_update_wf []). constructor.
Qed.

(** C1, as the code has it. Without [load], every reachable store holds
    only quantities at least 0. [remove] keeps all quantities above 0 when
    they were, deleting an entry that would drop to 0 or below. [add] keeps
    them above 0 unless it adds 0. [load] installs the members of the file
    as they are, whatever their sign. *)
Theorem stock_quantity_invariant :
  (forall w,
     reachable_with (fun c => ~ is_load c) w -> all_nonneg (stock_data w))
  /\ (forall w item qty,
        all_positive (stock_data w) ->
        all_positive (stock_data (remove_item item qty w).2))
  /\ (forall w item qty logs stamp,
        all_positive (stock_data w) ->
        (forall n, qty = PyInt n -> int_value n <> 0%Z) ->
        all_positive (stock_data (add_item item qty logs stamp w).2))
  /\ (forall w path j items,
        files w !! path = Some (Doc j) ->
        json_decode j = PyDict items ->
        (load_data path w).1 = Return tt ->
        forall k n,
          dict_get k (stock_data (load_data path w).2) = Some n
          <-> (PyStr k, PyInt n) ∈ items).
Proof.
  split_and!.
  - apply reachable_nonneg.
  - intros w item qty Hinv.
    apply remove_item_Forall; [intros; simpl; lia|done].
  - intros w item qty logs stamp. apply add_item_positive.
  - intros w path j items Hp Hdec Hret.
    by apply (load_data_entries w path j items).
Qed.

(** C1 fails as stated: adding 0 of an absent item leaves a zero entry, and
    [load] installs the zero and negative quantities of a file. *)
Lemma zero_entry_reachable :
  (reachable
     (exec (CallAdd (PyStr "apple") (PyInt (PInt 0)) None "t") (initial ∅))
   /\ stock_data
        (exec (CallAdd (PyStr "apple") (PyInt (PInt 0)) None "t")
           (initial ∅))
      = [("apple", PInt 0)]
   /\ ~ all_positive
        (stock_data
           (exec (CallAdd (PyStr "apple") (PyInt (PInt 0)) None "t")
              (initial ∅))))
  /\ (reachable (exec (CallLoad "inventory.json") (initial negative_file))
      /\ stock_data (exec (CallLoad "inventory.json")
                       (initial negative_file))
         = [("apple", PInt (-5)); ("pear", PInt 0)]
      /\ ~ all_positive
           (stock_data (exec (CallLoad "inventory.json")
                          (initial negative_file)))).
Proof.
  split; (split; [by repeat constructor|]); (split; [by vm_compute|]).
  - intros Hpos. apply Forall_cons in Hpos as [Hpos _]. by vm_compute in Hpos.
  - assert (Hst : stock_data (exec (CallLoad "inventory.json")
                                (initial negative_file))
                  = [("apple", PInt (-5)); ("pear", PInt 0)])
      by (by vm_compute).
    rewrite Hst. intros Hpos.
    apply Forall_cons in Hpos as [Hpos _]. by vm_compute in Hpos.
Qed.

Lemma stock_quantity_invariant_witness :
  all_nonneg
    (stock_data
       (exec (CallRemove (PyStr "apple") (PyInt (PInt 2)))
          (exec (CallAdd (PyStr "apple") (PyInt (PInt 0)) None "t")
             (initial ∅))))
  /\ all_positive
       (stock_data (remove_item (PyStr "apple") (PyInt (PInt 3))
                      sample_world).2)
  /\ all_positive
       (stock_data (add_item (PyStr "kiwi") (PyInt (PInt 1)) None "t"
                      sample_world).2)
  /\ (dict_get "apple"
        (stock_data (load_data "inventory.json" (initial negative_file)).2)
      = Some (PInt (-5))
      <-> (PyStr "apple", PyInt (PInt (-5)))
          ∈ [(PyStr "apple", PyInt (PInt (-5)));
             (PyStr "pear", PyInt (PInt 0))]).
Proof.
  pose proof stock_quantity_invariant as (Hreach & Hrem & Hadd & Hload).
  assert (Hsample : all_positive (stock_data sample_world)).
  { repeat constructor. }
  split_and!.
  - apply Hreach. repeat (constructor; [intros []|]). constructor.
  - apply Hrem. exact Hsample.
  - apply Hadd; [exact Hsample|]. intros n [= <-]. discriminate.
  - apply (Hload (initial negative_file) "inventory.json"
             (JObj [("apple", JInt (-5)); ("pear", JInt 0)])); reflexivity.
Defined.

(** * Further properties of the operations *)

(** ** More on dictionaries *)

Section dict_more.
Context {V : Type}.
Implicit Types (d : dict V) (k : string) (v : V).

Lemma dict_set_set k v1 v2 d :
  dict_set k v2 (dict_set k v1 d) = dict_set k v2 d.
Proof.
  induction d as [|[k' v'] d IH]; simpl.
  - by rewrite String.eqb_refl.
  - destruct (String.eqb k k') eqn:Hk; simpl; rewrite Hk; [done|].
    by rewrite IH.
Qed.

Lemma dict_del_absent k d : k ∉ d.*1 -> dict_del k d = d.
Proof.
  induction d as [|[k' v'] d IH]; simpl; [done|].
  rewrite not_elem_of_cons. intros [Hne Hk].
  destruct (String.eqb_spec k k'); [done|]. by rewrite IH.
Qed.

Lemma dict_get_is_Some k d : is_Some (dict_get k d) <-> k ∈ d.*1.
Proof.
  destruct (dict_get k d) as [v|] eqn:Hget.
  - split; [intros _|by eauto].
    apply list_elem_of_fmap. exists (k, v).
    split; [done|]. by apply dict_get_Some_elem.
  - apply dict_get_None in Hget. split; [by intros [? [=]]|done].
Qed.

Lemma dict_set_keys k v d :
  (dict_set k v d).*1
  = match dict_get k d with
    | Some _ => d.*1
    | None => d.*1 ++ [k]
    end.
Proof.
  destruct (dict_get k d) as [v0|] eqn:Hget.
  - apply dict_set_keys_present, dict_get_is_Some. by rewrite Hget.
  - apply dict_get_None in Hget. by rewrite dict_set_absent, fmap_app.
Qed.
End dict_more.

(** ** Partial removal *)

(** X1. Removing less than what is stored leaves the difference under the
    same key, at the same position, and touches no other entry. *)
Theorem remove_item_decrements w name n cur :
  strip name <> "" ->
  dict_get name (stock_data w) = Some cur ->
  (0 < int_value n)%Z ->
  (int_value n < int_value cur)%Z ->
  (remove_item (PyStr name) (PyInt n) w).1 = Return tt
  /\ dict_get name (stock_data (remove_item (PyStr name) (PyInt n) w).2)
     = Some (PInt (int_value cur - int_value n))
  /\ (stock_data (remove_item (PyStr name) (PyInt n) w).2).*1
     = (stock_data w).*1
  /\ (forall k, k <> name ->
        dict_get k (stock_data (remove_item (PyStr name) (PyInt n) w).2)
        = dict_get k (stock_data w))
  /\ logging (remove_item (PyStr name) (PyInt n) w).2
     = logging w
       ++ [(INFO, "New qty for " +:+ name +:+ ": "
                  +:+ py_str (PInt (int_value cur - int_value n)))].
Proof.
  intros Hname Hcur Hn Hlt.
  rewrite (remove_item_ok _ _ _ Hname Hn), Hcur. simpl.
  destruct (Z.leb_spec (int_value cur - int_value n) 0); [lia|]. simpl.
  split_and!; try done.
  - apply dict_get_set_eq.
  - by rewrite dict_set_keys, Hcur.
  - intros k Hk. by apply dict_get_set_ne.
Qed.

Lemma remove_item_decrements_witness :
  strip "pear" <> ""
  /\ dict_get "pear" (stock_data sample_world) = Some (PInt 8)
  /\ (0 < int_value (PInt 3))%Z
  /\ (int_value (PInt 3) < int_value (PInt 8))%Z
  /\ dict_get "pear"
       (stock_data (remove_item (PyStr "pear") (PyInt (PInt 3))
                      sample_world).2)
     = Some (PInt (int_value (PInt 8) - int_value (PInt 3))).
Proof.
  split_and!; [vm_compute; discriminate|reflexivity|reflexivity|reflexivity|].
  apply (remove_item_decrements sample_world "pear" (PInt 3) (PInt 8));
    [vm_compute; discriminate|reflexivity|reflexivity|reflexivity].
Defined.

(** ** What [add] leaves alone *)

(** X2. A valid [add] changes one entry only: every other name reads as
    before, a present name keeps its place in the dictionary, and a new
    name is appended after the existing entries. *)
Theorem add_item_frame w name n logs stamp :
  strip name <> "" ->
  (0 <= int_value n)%Z ->
  (forall k, k <> name ->
     dict_get k (stock_data (add_item (PyStr name) (PyInt n) logs stamp w).2)
     = dict_get k (stock_data w))
  /\ (is_Some (dict_get name (stock_data w)) ->
      (stock_data (add_item (PyStr name) (PyInt n) logs stamp w).2).*1
      = (stock_data w).*1)
  /\ (dict_get name (stock_data w) = None ->
      stock_data (add_item (PyStr name) (PyInt n) logs stamp w).2
      = stock_data w ++ [(name, PInt (int_value n))]).
Proof.
  intros Hname Hn. rewrite (add_item_ok _ _ _ _ _ Hname Hn). simpl.
  split_and!.
  - intros k Hk. by apply dict_get_set_ne.
  - intros [v Hv]. by rewrite dict_set_keys, Hv.
  - intros Hnone. unfold stored. rewrite Hnone. simpl.
    apply dict_set_absent. by apply dict_get_None.
Qed.

Lemma add_item_frame_witness :
  strip "kiwi" <> ""
  /\ (0 <= int_value (PInt 4))%Z
  /\ dict_get "kiwi" (stock_data sample_world) = None
  /\ stock_data (add_item (PyStr "kiwi") (PyInt (PInt 4)) None "t"
                   sample_world).2
     = stock_data sample_world ++ [("kiwi", PInt (int_value (PInt 4)))].
Proof.
  split_and!; [vm_compute; discriminate|vm_compute; discriminate
              |reflexivity|].
  apply (add_item_frame sample_world "kiwi" (PInt 4) None "t");
    [vm_compute; discriminate|vm_compute; discriminate|reflexivity].
Defined.

(** ** Composing [add] and [remove] *)

(** X3. Two valid additions to one item leave the store that a single
    addition of the sum leaves. *)
Theorem add_item_accumulates w name a b logs1 logs2 logs stamp1 stamp2 stamp :
  strip name <> "" ->
  (0 <= int_value a)%Z ->
  (0 <= int_value b)%Z ->
  stock_data
    (add_item (PyStr name) (PyInt b) logs2 stamp2
       (add_item (PyStr name) (PyInt a) logs1 stamp1 w).2).2
  = stock_data
      (add_item (PyStr name) (PyInt (PInt (int_value a + int_value b)))
         logs stamp w).2.
Proof.
  intros Hname Ha Hb.
  rewrite !add_item_ok by (done || simpl; lia). simpl.
  unfold stored at 1. simpl.
  rewrite dict_get_set_eq, dict_set_set. simpl.
  do 2 f_equal. lia.
Qed.

Lemma add_item_accumulates_witness :
  strip "apple" <> ""
  /\ (0 <= int_value (PInt 4))%Z
  /\ (0 <= int_value (PBool true))%Z
  /\ stock_data
       (add_item (PyStr "apple") (PyInt (PBool true)) None "t2"
          (add_item (PyStr "apple") (PyInt (PInt 4)) None "t1"
             sample_world).2).2
     = stock_data
         (add_item (PyStr "apple")
            (PyInt (PInt (int_value (PInt 4) + int_value (PBool true))))
            None "t" sample_world).2.
Proof.
  split_and!; [vm_compute; discriminate|vm_compute; discriminate
              |vm_compute; discriminate|].
  apply (add_item_accumulates sample_world "apple" (PInt 4) (PBool true));
    [vm_compute; discriminate|vm_compute; discriminate
    |vm_compute; discriminate].
Defined.

(** X4. Adding a positive quantity and then removing the same quantity
    gives back the quantities there were: the item reads as before (an item
    that was absent is absent again), provided its quantity was not stored
    at 0 or below; the other entries and the key order are kept. *)
Theorem add_then_remove_restores w name n logs stamp :
  strip name <> "" ->
  (0 < int_value n)%Z ->
  (forall cur,
     dict_get name (stock_data w) = Some cur -> (0 < int_value cur)%Z) ->
  (get_qty (PyStr name)
     (remove_item (PyStr name) (PyInt n)
        (add_item (PyStr name) (PyInt n) logs stamp w).2).2).1
  = Return (PInt (int_value (stored name w)))
  /\ (forall k, k <> name ->
        dict_get k
          (stock_data
             (remove_item (PyStr name) (PyInt n)
                (add_item (PyStr name) (PyInt n) logs stamp w).2).2)
        = dict_get k (stock_data w))
  /\ (stock_data
        (remove_item (PyStr name) (PyInt n)
           (add_item (PyStr name) (PyInt n) logs stamp w).2).2).*1
     = (stock_data w).*1.
Proof.
  intros Hname Hn Hpos.
  rewrite add_item_ok by (done || lia).
  rewrite (remove_item_ok _ _ _ Hname Hn). simpl.
  rewrite dict_get_set_eq. simpl.
  unfold stored.
  destruct (dict_get name (stock_data w)) as [cur|] eqn:Hcur; simpl.
  - specialize (Hpos cur eq_refl).
    destruct (Z.leb_spec (int_value cur + int_value n - int_value n) 0);
      [lia|].
    rewrite (get_qty_ok _ _ Hname). unfold stored. simpl.
    rewrite dict_set_set, dict_get_set_eq, dict_set_keys, Hcur.
    split_and!; [do 2 f_equal; lia| |done].
    intros k Hk. by apply dict_get_set_ne.
  - destruct (Z.leb_spec (0 + int_value n - int_value n) 0); [|lia].
    rewrite (get_qty_ok _ _ Hname). unfold stored. simpl.
    rewrite dict_set_set, dict_del_set.
    rewrite dict_del_absent by (by apply dict_get_None).
    by rewrite Hcur.
Qed.

Lemma add_then_remove_restores_witness :
  strip "apple" <> ""
  /\ (0 < int_value (PInt 5))%Z
  /\ (forall cur,
        dict_get "apple" (stock_data sample_world) = Some cur ->
        (0 < int_value cur)%Z)
  /\ (get_qty (PyStr "apple")
        (remove_item (PyStr "apple") (PyInt (PInt 5))
           (add_item (PyStr "apple") (PyInt (PInt 5)) None "t"
              sample_world).2).2).1
     = Return (PInt (int_value (stored "apple" sample_world))).
Proof.
  assert (Hpos : forall cur,
             dict_get "apple" (stock_data sample_world) = Some cur ->
             (0 < int_value cur)%Z)
    by (intros cur [= <-]; reflexivity).
  split_and!; [vm_compute; discriminate|reflexivity|exact Hpos|].
  apply (add_then_remove_restores sample_world "apple" (PInt 5) None "t");
    [vm_compute; discriminate|reflexivity|exact Hpos].
Defined.

(** ** What the operations never do *)

(** X5. Whatever its arguments, [remove] creates no entry and reorders
    none: the keys afterwards are a sublist of the keys before. Whatever
    its arguments, [add] deletes no entry and reorders none, and lowers no
    quantity: the keys before are a prefix of the keys afterwards. *)
Theorem keys_kept_in_order w item qty logs stamp :
  (stock_data (remove_item item qty w).2).*1 `sublist_of` (stock_data w).*1
  /\ (stock_data w).*1
     `prefix_of` (stock_data (add_item item qty logs stamp w).2).*1
  /\ (forall k v,
        dict_get k (stock_data w) = Some v ->
        exists v',
          dict_get k (stock_data (add_item item qty logs stamp w).2)
          = Some v'
          /\ (int_value v <= int_value v')%Z).
Proof.
  split_and!.
  - destruct item as [| | |name| |]; try done.
    destruct (str_is_empty (strip name)) eqn:Hname;
      [by run; rewrite Hname|].
    destruct qty as [|n| | | |]; try (by run; rewrite Hname).
    destruct (Z.leb_spec (int_value n) 0) as [Hn|Hn].
    + run. rewrite Hname. by destruct (Z.leb_spec (int_value n) 0); [|lia].
    + rewrite remove_item_ok; [|by destruct (strip name)|done].
      destruct (dict_get name (stock_data w)) as [cur|] eqn:Hcur; [|done].
      simpl. destruct (int_value cur - int_value n <=? 0)%Z; simpl.
      * rewrite dict_del_set. apply fmap_sublist, dict_del_sublist.
      * by rewrite dict_set_keys, Hcur.
  - run. destruct item as [| | |name| |]; try done.
    destruct (str_is_empty (strip name)); [done|].
    destruct qty as [|n| | | |]; try done.
    destruct (int_value n <? 0)%Z; [done|]. simpl.
    rewrite dict_set_keys.
    destruct (dict_get name (stock_data w)); [done|].
    by apply prefix_app_r.
  - intros k v Hget. run.
    destruct item as [| | |name| |]; try (exists v; split; [done|lia]).
    destruct (str_is_empty (strip name)); [exists v; split; [done|lia]|].
    destruct qty as [|n| | | |]; try (exists v; split; [done|lia]).
    destruct (Z.ltb_spec (int_value n) 0); [exists v; split; [done|lia]|].
    simpl. destruct (String.eqb_spec name k) as [->|Hne].
    + rewrite Hget, dict_get_set_eq. eexists. split; [done|]. simpl. lia.
    + rewrite dict_get_set_ne by done. exists v. split; [done|lia].
Qed.

(** X6. [get_qty] and [check_low_items] change nothing, whatever they are
    given and whether they return or raise. *)
Theorem readers_change_nothing w v :
  (get_qty v w).2 = w /\ (check_low_items v w).2 = w.
Proof.
  split; run.
  - destruct v as [| | |name| |]; try done.
    by destruct (str_is_empty (strip name)).
  - destruct v as [|n| | | |]; try done.
    by destruct (int_value n <? 0)%Z.
Qed.

(** ** More on [load_data] *)

(** X7. A [load] that raises, for whatever reason, has changed nothing:
    the store is cleared only after the file was read, decoded and
    checked. *)
Theorem load_data_raise_unchanged w path e :
  (load_data path w).1 = Raise e -> (load_data path w).2 = w.
Proof.
  destruct (files w !! path) as [[|j|raw]|] eqn:Hp.
  - by rewrite (proj2 (load_data_unreadable w path) Hp).
  - rewrite (load_data_doc _ _ _ Hp).
    destruct (json_decode j) as [| | | | |items]; try done.
    by destruct (forallb is_str_int_pair items).
  - by rewrite (proj1 (load_data_unreadable w path) raw Hp).
  - by rewrite (load_data_absent _ _ Hp).
Qed.

Lemma load_data_raise_unchanged_witness :
  (load_data "inventory.json" ten_world).1
  = Raise (ValueError "File format must be str -> int mapping")
  /\ (load_data "inventory.json" ten_world).2 = ten_world.
Proof.
  split; [reflexivity|].
  apply (load_data_raise_unchanged ten_world "inventory.json"
           (ValueError "File format must be str -> int mapping")).
  reflexivity.
Defined.

(** X9. What [load] returns or raises depends on the files only, and a
    successful [load] leaves a store that owes nothing to the store before
    it: two worlds with the same files end with the same store. *)
Theorem load_data_forgets_store w1 w2 path :
  files w1 = files w2 ->
  (load_data path w1).1 = (load_data path w2).1
  /\ ((load_data path w1).1 = Return tt ->
      stock_data (load_data path w1).2 = stock_data (load_data path w2).2).
Proof.
  intros Hfs.
  destruct (files w1 !! path) as [[|j|raw]|] eqn:Hp1;
    pose proof Hp1 as Hp2; rewrite Hfs in Hp2.
  - rewrite !(proj2 (load_data_unreadable _ path)) by done. done.
  - rewrite (load_data_doc _ _ _ Hp1), (load_data_doc _ _ _ Hp2).
    destruct (json_decode j) as [| | | | |items]; try done.
    by destruct (forallb is_str_int_pair items).
  - rewrite !(proj1 (load_data_unreadable _ path) raw) by done. done.
  - by rewrite (load_data_absent _ _ Hp1), (load_data_absent _ _ Hp2).
Qed.

Lemma load_data_forgets_store_witness :
  files (World sample_store negative_file [] []) = files (initial negative_file)
  /\ (load_data "inventory.json" (World sample_store negative_file [] [])).1
     = (load_data "inventory.json" (initial negative_file)).1
  /\ ((load_data "inventory.json"
         (World sample_store negative_file [] [])).1 = Return tt ->
      stock_data (load_data "inventory.json"
                    (World sample_store negative_file [] [])).2
      = stock_data (load_data "inventory.json" (initial negative_file)).2).
Proof.
  split; [reflexivity|].
  apply (load_data_forgets_store (World sample_store negative_file [] [])
           (initial negative_file) "inventory.json").
  reflexivity.
Defined.

Lemma json_is_int_decode j :
  isinstance_int (json_decode j) = json_is_int j.
Proof. by destruct j. Qed.

Lemma json_decode_int j n : json_decode j = PyInt n <-> j = json_of_pyint n.
Proof.
  split.
  - destruct j; simpl; try discriminate; by intros [= <-].
  - intros ->. by destruct n.
Qed.

Lemma decoded_keys members :
  Forall (fun m : string * json => json_is_int m.2) members ->
  (str_int_items (decoded <$> members)).*1 = members.*1.
Proof.
  induction 1 as [|[k j] members Hj _ IH]; [done|].
  rewrite fmap_cons. unfold decoded at 1. simpl in *.
  destruct j; try done; simpl; f_equal; exact IH.
Qed.

(** X8. For a file holding a JSON object with distinct member names,
    [load] succeeds exactly when every member value is an integer or a
    boolean; the store then holds the members in file order, each name
    with its value. *)
Theorem load_data_object w path members :
  files w !! path = Some (Doc (JObj members)) ->
  NoDup (members.*1) ->
  ((load_data path w).1 = Return tt
   <-> Forall (fun m => json_is_int m.2) members)
  /\ ((load_data path w).1 = Return tt ->
      (stock_data (load_data path w).2).*1 = members.*1
      /\ forall k n,
           dict_get k (stock_data (load_data path w).2) = Some n
           <-> (k, json_of_pyint n) ∈ members).
Proof.
  intros Hp Hnd.
  pose proof (json_decode_object members Hnd) as Hdec.
  assert (Hall : forallb is_str_int_pair (decoded <$> members) = true
                 <-> Forall (fun m => json_is_int m.2) members).
  { rewrite <- Is_true_true, forallb_True, Forall_fmap.
    apply Forall_proper; [|done]. intros [k j].
    unfold is_str_int_pair, decoded, compose. simpl.
    by rewrite json_is_int_decode. }
  split.
  - rewrite (load_data_doc _ _ _ Hp), Hdec.
    destruct (forallb is_str_int_pair (decoded <$> members)) eqn:Hb.
    + split; [intros _; by apply Hall|done].
    + split; [done|]. intros Hf%Hall. discriminate.
  - intros Hret.
    destruct (load_data_entries w path _ _ Hp Hdec Hret) as [Hwf Hget].
    split.
    + revert Hret. rewrite (load_data_doc _ _ _ Hp), Hdec.
      destruct (forallb is_str_int_pair (decoded <$> members)) eqn:Hb;
        [|discriminate].
      intros _. simpl. pose proof (proj1 Hall eq_refl) as Hf.
      rewrite dict_update_app.
      * by apply decoded_keys.
      * simpl. by rewrite decoded_keys.
    + intros k n. rewrite Hget, list_elem_of_fmap. split.
      * intros ([k' j] & [= <- Hj] & Hin). symmetry in Hj.
        apply json_decode_int in Hj as ->. done.
      * intros Hin. exists (k, json_of_pyint n). split; [|done].
        unfold decoded. simpl. f_equal. symmetry. by apply json_decode_int.
Qed.

Lemma load_data_object_witness :
  files (initial negative_file) !! "inventory.json"
  = Some (Doc (JObj [("apple", JInt (-5)); ("pear", JInt 0)]))
  /\ NoDup ([("apple", JInt (-5)); ("pear", JInt 0)].*1)
  /\ ((load_data "inventory.json" (initial negative_file)).1 = Return tt
      <-> Forall (fun m : string * json => json_is_int m.2)
            [("apple", JInt (-5)); ("pear", JInt 0)]).
Proof.
  assert (Hnd : NoDup ([("apple", JInt (-5)); ("pear", JInt 0)].*1))
    by (apply (bool_decide_unpack _); by vm_compute).
  split; [reflexivity|]. split; [exact Hnd|].
  apply (load_data_object (initial negative_file) "inventory.json");
    [reflexivity|exact Hnd].
Defined.

(** ** More on [save_data] *)

(** X10. Saving to a path that can be written leaves there a JSON object
    whose members are the entries of the store, in ascending order of
    name; the store, the other files, the log and the output are as
    before. *)
Theorem save_data_sorted w path :
  files w !! path <> Some Dir ->
  (save_data path w).1 = Return tt
  /\ (exists members,
        files (save_data path w).2 !! path = Some (Doc (JObj members))
        /\ Sorted key_le members
        /\ members ≡ₚ dumped <$> stock_data w)
  /\ stock_data (save_data path w).2 = stock_data w
  /\ (forall p, p <> path ->
        files (save_data path w).2 !! p = files w !! p)
  /\ logging (save_data path w).2 = logging w
  /\ stdout (save_data path w).2 = stdout w.
Proof.
  intros Hp. rewrite (save_data_ok _ _ Hp). simpl.
  destruct (json_dump_members (stock_data w)) as (members & Hm & Hperm & Hs).
  split_and!; try done.
  - exists members. rewrite lookup_insert_eq, Hm. done.
  - intros p Hne. by apply lookup_insert_ne.
Qed.

Lemma save_data_sorted_witness :
  files sample_world !! "inventory.json" <> Some Dir
  /\ (save_data "inventory.json" sample_world).1 = Return tt
  /\ exists members,
       files (save_data "inventory.json" sample_world).2 !! "inventory.json"
       = Some (Doc (JObj members))
       /\ Sorted key_le members
       /\ members ≡ₚ dumped <$> stock_data sample_world.
Proof.
  destruct (save_data_sorted sample_world "inventory.json")
    as (Hret & Hmem & _); [vm_compute; discriminate|].
  split_and!; [vm_compute; discriminate|exact Hret|exact Hmem].
Defined.

(** ** The report *)

(** The loop of [print_data] over names that are all in the store. *)
Lemma print_data_lines d fs lg names out :
  (forall name, name ∈ names -> is_Some (dict_get name d)) ->
  fold_right
    (fun name rest =>
       v <- stock_getitem name ;;
       print (name +:+ " -> " +:+ py_str v) ;;;
       rest)
    (py_ret tt) names (World d fs lg out)
  = (Return tt, World d fs lg (out ++ (report_line d <$> names))).
Proof.
  revert out. induction names as [|name names IH]; intros out Hin.
  - simpl. unfold py_ret. by rewrite app_nil_r.
  - destruct (Hin name) as [v Hv]; [left|].
    rewrite fmap_cons. unfold report_line at 1. rewrite Hv.
    change (fold_right ?f ?e (name :: names)) with
      (f name (fold_right f e names)).
    unfold py_bind at 1 2, stock_getitem, read_stock, print, py_bind.
    simpl. rewrite Hv. simpl.
    rewrite IH by (intros; apply Hin; by right).
    by rewrite <- app_assoc.
Qed.

(** X11. [print_data] never raises and changes the output only: it prints
    the heading and then one line [name -> quantity] for every entry, in
    ascending order of name. *)
Theorem print_data_output w :
  print_data w
  = (Return tt,
     World (stock_data w) (files w) (logging w)
           (stdout w
            ++ "Items Report"
               :: (report_line (stock_data w)
                   <$> sorted_keys (stock_data w))))
  /\ Sorted str_le (sorted_keys (stock_data w))
  /\ sorted_keys (stock_data w) ≡ₚ (stock_data w).*1.
Proof.
  assert (Hperm : sorted_keys (stock_data w) ≡ₚ (stock_data w).*1)
    by apply merge_sort_Permutation.
  split_and!; [|apply Sorted_merge_sort|done].
  - unfold print_data, py_bind at 1 2, print at 1, read_stock. simpl.
    rewrite print_data_lines.
    + by rewrite <- app_assoc.
    + intros name Hname. apply dict_get_is_Some. by rewrite <- Hperm.
  - intros a b. unfold str_le. apply String.leb_total.
Qed.

Example print_data_run :
  stdout (print_data sample_world).2
  = ["Items Report"; "apple -> 3"; "banana -> 2"; "pear -> 8"].
Proof. by vm_compute. Qed.

(** ** Low stock under two thresholds *)

Lemma filter_sublist_impl {A : Type} (P Q : A -> Prop)
    `{!forall x, Decision (P x)} `{!forall x, Decision (Q x)} (l : list A) :
  (forall x, P x -> Q x) -> filter P l `sublist_of` filter Q l.
Proof.
  intros HPQ. induction l as [|x l IH]; [done|].
  rewrite !filter_cons.
  destruct (decide (P x)) as [HP|HP].
  - rewrite decide_True by auto. by apply sublist_skip.
  - destruct (decide (Q x)); [by apply sublist_cons|done].
Qed.

(** X12. Raising the threshold only adds names to the low-stock list: the
    list for a smaller threshold is a sublist of the list for a larger
    one, and every list keeps the names in the order of the store. *)
Theorem check_low_items_monotone w t1 t2 :
  (0 <= int_value t1)%Z ->
  (int_value t1 <= int_value t2)%Z ->
  exists low1 low2,
    check_low_items (PyInt t1) w = (Return low1, w)
    /\ check_low_items (PyInt t2) w = (Return low2, w)
    /\ low1 `sublist_of` low2
    /\ low2 `sublist_of` (stock_data w).*1.
Proof.
  intros H1 H12. run.
  destruct (Z.ltb_spec (int_value t1) 0); [lia|].
  destruct (Z.ltb_spec (int_value t2) 0); [lia|].
  eexists _, _. split_and!; try reflexivity.
  - apply fmap_sublist, filter_sublist_impl. intros kv. lia.
  - apply fmap_sublist, sublist_filter.
Qed.

Lemma check_low_items_monotone_witness :
  (0 <= int_value (PInt 3))%Z
  /\ (int_value (PInt 3) <= int_value (PInt 5))%Z
  /\ exists low1 low2,
       check_low_items (PyInt (PInt 3)) sample_world
       = (Return low1, sample_world)
       /\ check_low_items (PyInt (PInt 5)) sample_world
          = (Return low2, sample_world)
       /\ low1 `sublist_of` low2
       /\ low2 `sublist_of` (stock_data sample_world).*1.
Proof.
  split; [vm_compute; discriminate|].
  split; [vm_compute; discriminate|].
  apply (check_low_items_monotone sample_world (PInt 3) (PInt 5));
    vm_compute; discriminate.
Defined.

(** ** The calls of [main], start to end *)

Lemma py_bind_run {A B : Type} (m : py A) (k : A -> py B) w a w' :
  m w = (Return a, w') -> py_bind m k w = k a w'.
Proof. intros Hm. unfold py_bind. by rewrite Hm. Qed.

(** X13. Started on the empty store, with [inventory.json] absent or an
    ordinary file, [main] returns normally: it leaves apple at 7 and banana
    at 2, writes both to [inventory.json] in name order, logs four events
    and prints the stock of apple, the low items and the report. *)
Theorem main_run fs stamp1 stamp2 :
  fs !! "inventory.json" <> Some Dir ->
  main stamp1 stamp2 (initial fs)
  = (Return tt,
     World [("apple", PInt 7); ("banana", PInt 2)]
           (<["inventory.json" :=
                Doc (JObj [("apple", JInt 7); ("banana", JInt 2)])]> fs)
           [(INFO, "Added 10 of apple"); (INFO, "Added 2 of banana");
            (INFO, "New qty for apple: 7");
            (WARNING, "Tried removing missing item orange")]
           ["Apple stock: 7"; "Low items: ['banana']"; "Items Report";
            "apple -> 7"; "banana -> 2"]).
Proof.
  intros Hfs. unfold main.
  do 8 (erewrite py_bind_run; [|vm_compute; reflexivity]).
  erewrite py_bind_run; [|by apply save_data_ok].
  assert (Hdump : json_dump [("apple", PInt 7); ("banana", PInt 2)]
                  = JObj [("apple", JInt 7); ("banana", JInt 2)])
    by (by vm_compute).
  simpl. rewrite Hdump.
  erewrite py_bind_run; cycle 1.
  - rewrite (load_data_doc _ _ (JObj [("apple", JInt 7); ("banana", JInt 2)]));
      [|simpl; apply lookup_insert_eq].
    simpl. reflexivity.
  - generalize (<["inventory.json" :=
                    Doc (JObj [("apple", JInt 7); ("banana", JInt 2)])]> fs).
    intros fs'. by vm_compute.
Qed.

Lemma main_run_witness :
  (∅ : gmap string file) !! "inventory.json" <> Some Dir
  /\ stdout (main "t1" "t2" (initial ∅)).2
     = ["Apple stock: 7"; "Low items: ['banana']"; "Items Report";
        "apple -> 7"; "banana -> 2"].
Proof.
  split; [vm_compute; discriminate|].
  rewrite (main_run ∅ "t1" "t2"); [reflexivity|vm_compute; discriminate].
Defined.

(** ** What [add] and [remove] leave of the rest of the world *)

(** X14. Whatever their arguments, [add] and [remove] leave the files and
    the printed output alone and only append to the log: one event when
    they return, none when they raise. *)
Theorem mutators_log_once w item qty logs stamp :
  (files (add_item item qty logs stamp w).2 = files w
   /\ stdout (add_item item qty logs stamp w).2 = stdout w
   /\ match (add_item item qty logs stamp w).1 with
      | Return _ =>
          exists msg,
            logging (add_item item qty logs stamp w).2
            = logging w ++ [(INFO, msg)]
      | Raise _ => logging (add_item item qty logs stamp w).2 = logging w
      end)
  /\ (files (remove_item item qty w).2 = files w
      /\ stdout (remove_item item qty w).2 = stdout w
      /\ match (remove_item item qty w).1 with
         | Return _ =>
             exists lvl msg,
               logging (remove_item item qty w).2
               = logging w ++ [(lvl, msg)]
         | Raise _ => logging (remove_item item qty w).2 = logging w
         end).
Proof.
  split.
  - run. destruct item as [| | |name| |]; try done.
    destruct (str_is_empty (strip name)); [done|].
    destruct qty as [|n| | | |]; try done.
    destruct (int_value n <? 0)%Z; [done|]. simpl. eauto.
  - destruct item as [| | |name| |]; try done.
    destruct (str_is_empty (strip name)) eqn:Hname;
      [by run; rewrite Hname|].
    destruct qty as [|n| | | |]; try (by run; rewrite Hname).
    destruct (Z.leb_spec (int_value n) 0) as [Hn|Hn].
    + run. rewrite Hname. by destruct (Z.leb_spec (int_value n) 0); [|lia].
    + rewrite remove_item_ok; [|by destruct (strip name)|done].
      destruct (dict_get name (stock_data w)) as [cur|]; simpl; [|eauto].
      destruct (int_value cur - int_value n <=? 0)%Z; simpl; eauto.
Qed.
